(** * analyze_responses.py: the structure reporter of the trip-planner examples

    A shallow embedding of [backend/docs/tfnsw/trip_planner/analyze_responses.py]
    and the properties its specification states about it.

    - Parsed JSON documents are the inductive type [json]; a Python [dict]
      read by the script is an association list in insertion order.
    - The mapping built by [analyze_json_structure] is a [gmap string string].
    - Code that can raise runs in the [result] monad; code that prints runs
      in the [printer] monad (lines printed so far, then the outcome). *)

From Stdlib Require Import ZArith List Ascii String Bool Lia.
From stdpp Require Import base option list strings pretty gmap fin_maps.

Local Open Scope string_scope.
Local Open Scope Z_scope.

(** ** Python values that [json.load] produces *)

(** A float is kept as the text [repr] gives for it (the shortest decimal
    that reads back to the same double), which is all the script ever does
    with one besides testing it against zero. *)
Record pyfloat := PyFloat { float_repr : string }.

Unset Elimination Schemes.
Inductive json :=
| JNull
| JBool (b : bool)
| JInt (n : Z)              (* any size: [json.load] refuses what [repr] could not print *)
| JFloat (f : pyfloat)
| JStr (s : string)
| JList (l : list json)
| JDict (items : list (string * json)).
Set Elimination Schemes.

(** Induction with the hypothesis available for every element of an array
    and every value of an object. *)
Section json_induction.
Variable P : json → Prop.
Hypothesis Hnull : P JNull.
Hypothesis Hbool : ∀ b, P (JBool b).
Hypothesis Hint : ∀ n, P (JInt n).
Hypothesis Hfloat : ∀ f, P (JFloat f).
Hypothesis Hstr : ∀ s, P (JStr s).
Hypothesis Hlist : ∀ l, Forall P l → P (JList l).
Hypothesis Hdict : ∀ items, Forall (λ kv, P kv.2) items → P (JDict items).

Fixpoint json_ind (v : json) : P v :=
  match v with
  | JNull => Hnull
  | JBool b => Hbool b
  | JInt n => Hint n
  | JFloat f => Hfloat f
  | JStr s => Hstr s
  | JList l =>
      Hlist l ((fix elems (l : list json) : Forall P l :=
                  match l with
                  | [] => Forall_nil_2 P
                  | x :: l' => Forall_cons_2 P x l' (json_ind x) (elems l')
                  end) l)
  | JDict items =>
      Hdict items
        ((fix values (its : list (string * json)) : Forall (λ kv, P kv.2) its :=
            match its with
            | [] => Forall_nil_2 _
            | kv :: its' => Forall_cons_2 _ kv its' (json_ind kv.2) (values its')
            end) items)
  end.
End json_induction.

(** ** Exceptions

    The exceptions of the operations the script performs on values and
    names. Running out of a resource (the recursion limit, memory) is not
    modelled. *)

Inductive exn :=
| IndexError | KeyError | TypeError | AttributeError | NameError | JSONDecodeError.

Inductive result (A : Type) :=
| Ok (a : A)
| Raise (e : exn).
Arguments Ok {A} a.
Arguments Raise {A} e.

#[global] Instance result_ret : MRet result := λ A a, Ok a.

#[global] Instance result_bind : MBind result := λ A B k r,
  match r with
  | Ok a => k a
  | Raise e => Raise e
  end.

(** ** The builtins the script uses *)

Definition isinstance_dict (v : json) : bool :=
  match v with JDict _ => true | _ => false end.

Definition isinstance_list (v : json) : bool :=
  match v with JList _ => true | _ => false end.

(** [type(v).__name__] *)
Definition type_name (v : json) : string :=
  match v with
  | JNull => "NoneType"
  | JBool _ => "bool"
  | JInt _ => "int"
  | JFloat _ => "float"
  | JStr _ => "str"
  | JList _ => "list"
  | JDict _ => "dict"
  end.

Definition chr (n : nat) : string := String (ascii_of_nat n) EmptyString.
Definition backslash : string := chr 92.
Definition newline : string := chr 10.

Definition hex_digit (n : nat) : string :=
  match n with
  | 0 => "0" | 1 => "1" | 2 => "2" | 3 => "3" | 4 => "4" | 5 => "5"
  | 6 => "6" | 7 => "7" | 8 => "8" | 9 => "9" | 10 => "a" | 11 => "b"
  | 12 => "c" | 13 => "d" | 14 => "e" | _ => "f"
  end%nat.

Fixpoint has_char (c : ascii) (s : string) : bool :=
  match s with
  | EmptyString => false
  | String c' s' => if Ascii.eqb c c' then true else has_char c s'
  end.

(** [repr] of one character of a [str], for the quote character [q] in use.
    Characters are the code points 0 to 255. *)
Definition repr_char (q : ascii) (c : ascii) : string :=
  let n := nat_of_ascii c in
  if Ascii.eqb c q || Ascii.eqb c (ascii_of_nat 92) then backslash +:+ String c ""
  else if (n =? 9)%nat then backslash +:+ "t"
  else if (n =? 10)%nat then backslash +:+ "n"
  else if (n =? 13)%nat then backslash +:+ "r"
  else if (n <? 32)%nat || (n =? 127)%nat
          || ((128 <=? n)%nat && (n <=? 160)%nat) || (n =? 173)%nat
       then backslash +:+ "x" +:+ hex_digit (n / 16) +:+ hex_digit (n mod 16)
  else String c "".

Fixpoint repr_chars (q : ascii) (s : string) : string :=
  match s with
  | EmptyString => ""
  | String c s' => repr_char q c +:+ repr_chars q s'
  end.

(** [repr] of a [str]: single quotes, unless the text has a single quote
    and no double quote. *)
Definition repr_str (s : string) : string :=
  let q := if has_char (ascii_of_nat 39) s && negb (has_char (ascii_of_nat 34) s)
           then ascii_of_nat 34 else ascii_of_nat 39 in
  String q "" +:+ repr_chars q s +:+ String q "".

Definition join (sep : string) (parts : list string) : string :=
  match parts with
  | [] => ""
  | p :: ps => fold_left (λ acc x, acc +:+ sep +:+ x) ps p
  end.

(** [repr(v)] *)
Fixpoint repr (v : json) : string :=
  match v with
  | JNull => "None"
  | JBool b => if b then "True" else "False"
  | JInt n => pretty n
  | JFloat f => float_repr f
  | JStr s => repr_str s
  | JList l => "[" +:+ join ", " (map repr l) +:+ "]"
  | JDict items =>
      "{" +:+ join ", " (map (λ kv, repr_str kv.1 +:+ ": " +:+ repr kv.2) items) +:+ "}"
  end.

(** [str(v)], which is what an f-string field prints *)
Definition str (v : json) : string :=
  match v with
  | JStr s => s
  | _ => repr v
  end.

(** [s[:n]] on a string *)
Fixpoint str_take (n : nat) (s : string) : string :=
  match n, s with
  | S n', String c s' => String c (str_take n' s')
  | _, _ => ""
  end.

(** Truth value of a string: [if prefix] *)
Definition str_truthy (s : string) : bool :=
  match s with EmptyString => false | _ => true end.

(** [structure.update(other)]: the entries of [other] win. *)
Definition dict_update (structure other : gmap string string) : gmap string string :=
  other ∪ structure.

(** [for key, value in obj.items(): ...] with the loop body threading the
    mapping under construction; an exception in the body leaves the loop. *)
Definition for_items {A S : Type} (body : A → S → result S)
    : list A → S → result S :=
  fix loop (items : list A) (s : S) : result S :=
    match items with
    | [] => Ok s
    | it :: rest => s' ← body it s; loop rest s'
    end.

(** ** [analyze_json_structure] *)

Fixpoint analyze_json_structure (obj : json) (prefix : string)
    (depth max_depth : Z) {struct obj} : result (gmap string string) :=
  if depth >? max_depth then Ok ∅ else
  match obj with
  | JDict items =>
      for_items (λ '(key, value) structure,
        let path := if str_truthy prefix then prefix +:+ "." +:+ key else key in
        match value with
        | JDict d =>
            let structure :=
              <[path := "object (" +:+ pretty (length d) +:+ " keys)"]> structure in
            sub ← analyze_json_structure value path (depth + 1) max_depth;
            Ok (dict_update structure sub)
        | JList l =>
            if (0 <? length l)%nat then
              let structure :=
                <[path := "array (" +:+ pretty (length l) +:+ " items)"]> structure in
              match l with
              | [] => Raise IndexError
              | v0 :: _ =>
                  if isinstance_dict v0 then
                    sub ← analyze_json_structure v0 (path +:+ "[0]") (depth + 1) max_depth;
                    Ok (dict_update structure sub)
                  else Ok structure
              end
            else Ok (<[path := "array (empty)"]> structure)
        | _ =>
            Ok (<[path := type_name value +:+ ": " +:+ str_take 50 (repr value)]> structure)
        end) items ∅
  | _ => Ok ∅
  end.

(** The body of the loop of [analyze_json_structure], named so that the
    function can be unfolded one iteration at a time. *)
Definition analyze_item (prefix : string) (depth max_depth : Z)
    : string * json → gmap string string → result (gmap string string) :=
  λ '(key, value) structure,
  let path := if str_truthy prefix then prefix +:+ "." +:+ key else key in
  match value with
  | JDict d =>
      let structure :=
        <[path := "object (" +:+ pretty (length d) +:+ " keys)"]> structure in
      sub ← analyze_json_structure value path (depth + 1) max_depth;
      Ok (dict_update structure sub)
  | JList l =>
      if (0 <? length l)%nat then
        let structure :=
          <[path := "array (" +:+ pretty (length l) +:+ " items)"]> structure in
        match l with
        | [] => Raise IndexError
        | v0 :: _ =>
            if isinstance_dict v0 then
              sub ← analyze_json_structure v0 (path +:+ "[0]") (depth + 1) max_depth;
              Ok (dict_update structure sub)
            else Ok structure
        end
      else Ok (<[path := "array (empty)"]> structure)
  | _ =>
      Ok (<[path := type_name value +:+ ": " +:+ str_take 50 (repr value)]> structure)
  end.

(** ** Positions inside a document

    A position is the list of steps taken from the top of the document: the
    key of an object, or the first element of an array. *)

Inductive seg :=
| Key (k : string)
| Idx0.

(** [at_path doc sp v]: following [sp] from [doc] leads to the value [v]. *)
Inductive at_path : json → list seg → json → Prop :=
| at_here v : at_path v [] v
| at_key items k v sp w :
    In (k, v) items → at_path v sp w → at_path (JDict items) (Key k :: sp) w
| at_idx0 x l sp w :
    at_path x sp w → at_path (JList (x :: l)) (Idx0 :: sp) w.

(** The path string of a position below [prefix]: keys joined by dots (no
    dot after an empty prefix), and [[0]] for the first element of an array. *)
Fixpoint render (prefix : string) (sp : list seg) : string :=
  match sp with
  | [] => prefix
  | Key k :: sp' => render (if str_truthy prefix then prefix +:+ "." +:+ k else k) sp'
  | Idx0 :: sp' => render (prefix +:+ "[0]") sp'
  end.

(** Positions of the form key, then any number of .key or [0].key: the
    values of keys, reached through objects and first elements only.
    [steps_ok after_key sp] reads the steps left to right, remembering
    whether the step before was a key: [[0]] may only follow a key, and the
    position ends on a key. *)
Fixpoint steps_ok (after_key : bool) (sp : list seg) : bool :=
  match sp with
  | [] => after_key
  | Key _ :: sp' => steps_ok true sp'
  | Idx0 :: sp' => after_key && steps_ok false sp'
  end.

Definition entry_path (sp : list seg) : bool := steps_ok false sp.

(** Number of keys on a position. The value of a key is handled by the call
    whose depth is the number of keys above it. *)
Fixpoint key_count (sp : list seg) : Z :=
  match sp with
  | [] => 0
  | Key _ :: sp' => 1 + key_count sp'
  | Idx0 :: sp' => key_count sp'
  end.

Definition call_depth (sp : list seg) : Z := key_count sp - 1.

(** [reached doc max_depth sp v]: the value [v] sits at the entry position
    [sp] of [doc], and the call that handles it has depth at most
    [max_depth]. *)
Definition reached (doc : json) (max_depth : Z) (sp : list seg) (v : json) : Prop :=
  entry_path sp = true ∧ at_path doc sp v ∧ call_depth sp ≤ max_depth.

(** The summary text written for a value. *)
Definition describe (v : json) : string :=
  match v with
  | JDict d => "object (" +:+ pretty (length d) +:+ " keys)"
  | JList [] => "array (empty)"
  | JList l => "array (" +:+ pretty (length l) +:+ " items)"
  | _ => type_name v +:+ ": " +:+ str_take 50 (repr v)
  end.

Definition is_scalar (v : json) : bool :=
  negb (isinstance_dict v) && negb (isinstance_list v).

(** The positions written by a call at depth [depth], in the order of the
    writes. *)
Fixpoint entries (obj : json) (depth max_depth : Z) {struct obj}
    : list (list seg * json) :=
  if depth >? max_depth then [] else
  match obj with
  | JDict items =>
      flat_map (λ '(key, value),
        ([Key key], value) ::
        match value with
        | JDict _ =>
            map (λ e, (Key key :: e.1, e.2)) (entries value (depth + 1) max_depth)
        | JList (v0 :: _) =>
            if isinstance_dict v0 then
              map (λ e, (Key key :: Idx0 :: e.1, e.2)) (entries v0 (depth + 1) max_depth)
            else []
        | _ => []
        end) items
  | _ => []
  end.

(** The positions written by one iteration of the loop. *)
Definition item_entries (depth max_depth : Z)
    : string * json → list (list seg * json) :=
  λ '(key, value),
    ([Key key], value) ::
    match value with
    | JDict _ =>
        map (λ e, (Key key :: e.1, e.2)) (entries value (depth + 1) max_depth)
    | JList (v0 :: _) =>
        if isinstance_dict v0 then
          map (λ e, (Key key :: Idx0 :: e.1, e.2)) (entries v0 (depth + 1) max_depth)
        else []
    | _ => []
    end.

(** Writing a list of positions into a mapping, one after the other. *)
Definition writes (prefix : string) (es : list (list seg * json))
    (m : gmap string string) : gmap string string :=
  fold_left (λ m e, <[render prefix e.1 := describe e.2]> m) es m.

(** ** Printing and the operations on values *)

(** What a piece of code wrote to standard output, one string per call of
    [print], and how it ended. *)
Record printer (A : Type) := Printer { output : list string; outcome : result A }.
Arguments Printer {A} output outcome.
Arguments output {A} p.
Arguments outcome {A} p.

#[global] Instance printer_ret : MRet printer := λ A a, Printer [] (Ok a).

#[global] Instance printer_bind : MBind printer := λ A B k c,
  match c with
  | Printer out (Ok a) =>
      match k a with
      | Printer out' r => Printer (out ++ out') r
      end
  | Printer out (Raise e) => Printer out (Raise e)
  end.

Definition print (line : string) : printer unit := Printer [line] (Ok tt).

(** An expression evaluated inside printing code *)
Definition eval {A} (r : result A) : printer A := Printer [] r.

Fixpoint dict_lookup (key : string) (items : list (string * json)) : option json :=
  match items with
  | [] => None
  | (k, v) :: rest => if String.eqb k key then Some v else dict_lookup key rest
  end.

(** [o.get(key, default)]; only a [dict] has the method. *)
Definition py_get (o : json) (key : string) (default : json) : result json :=
  match o with
  | JDict items =>
      Ok (match dict_lookup key items with Some v => v | None => default end)
  | _ => Raise AttributeError
  end.

(** [len(o)] *)
Definition py_len (o : json) : result nat :=
  match o with
  | JStr s => Ok (String.length s)
  | JList l => Ok (length l)
  | JDict items => Ok (length items)
  | _ => Raise TypeError
  end.

(** Truth value: [if o:] *)
Definition py_truthy (o : json) : bool :=
  match o with
  | JNull => false
  | JBool b => b
  | JInt n => negb (n =? 0)
  | JFloat f => negb (String.eqb (float_repr f) "0.0" || String.eqb (float_repr f) "-0.0")
  | JStr s => str_truthy s
  | JList l => match l with [] => false | _ => true end
  | JDict items => match items with [] => false | _ => true end
  end.

(** [o[0]]; the keys of a parsed object are strings, never [0]. *)
Definition py_index0 (o : json) : result json :=
  match o with
  | JList (v :: _) => Ok v
  | JList [] => Raise IndexError
  | JStr (String c _) => Ok (JStr (String c ""))
  | JStr EmptyString => Raise IndexError
  | JDict _ => Raise KeyError
  | _ => Raise TypeError
  end.

(** [o[:n]]; a [dict] cannot be sliced ([TypeError], [KeyError] from
    Python 3.12 on). *)
Definition py_slice (n : nat) (o : json) : result json :=
  match o with
  | JStr s => Ok (JStr (str_take n s))
  | JList l => Ok (JList (take n l))
  | _ => Raise TypeError
  end.

(** [list(o.keys())] *)
Definition py_keys (o : json) : result json :=
  match o with
  | JDict items => Ok (JList (map (λ kv, JStr kv.1) items))
  | _ => Raise AttributeError
  end.

Definition get (o : json) (key : string) : printer json := eval (py_get o key JNull).
Definition get_or (o : json) (key : string) (default : json) : printer json :=
  eval (py_get o key default).
Definition len (o : json) : printer nat := eval (py_len o).

(** ** The five summarizers *)

Definition summarize_stop_finder (data : json) : printer unit :=
  print (newline +:+ "=== STOP FINDER RESPONSE ===");;
  version ← get data "version";
  print ("Version: " +:+ str version);;
  locations ← get_or data "locations" (JList []);
  n ← len locations;
  print ("Locations count: " +:+ pretty n);;
  if py_truthy locations then
    loc ← eval (py_index0 locations);
    print (newline +:+ "First location structure:");;
    v ← get loc "id"; print ("  - id: " +:+ str v);;
    v ← get loc "name"; print ("  - name: " +:+ str v);;
    v ← get loc "disassembledName"; print ("  - disassembledName: " +:+ str v);;
    v ← get loc "type"; print ("  - type: " +:+ str v);;
    v ← get loc "coord"; print ("  - coord: " +:+ str v);;
    v ← get loc "modes"; print ("  - modes: " +:+ str v);;
    v ← get loc "matchQuality"; print ("  - matchQuality: " +:+ str v);;
    v ← get loc "isBest"; print ("  - isBest: " +:+ str v);;
    cond ← get loc "parent";
    v ← (if py_truthy cond then
           parent ← get_or loc "parent" (JDict []); get parent "name"
         else mret (JStr "None"));
    print ("  - parent: " +:+ str v);;
    props ← get_or loc "properties" (JDict []);
    if py_truthy props then
      keys ← eval (py_keys props);
      v ← eval (py_slice 10 keys);
      print ("  - properties keys: " +:+ str v)
    else mret tt
  else mret tt.

Definition summarize_departure_mon (data : json) : printer unit :=
  print (newline +:+ "=== DEPARTURE MONITOR RESPONSE ===");;
  version ← get data "version";
  print ("Version: " +:+ str version);;
  locations ← get_or data "locations" (JList []);
  n ← len locations;
  print ("Locations count: " +:+ pretty n);;
  stop_events ← get_or data "stopEvents" (JList []);
  n ← len stop_events;
  print ("Stop events count: " +:+ pretty n);;
  if py_truthy stop_events then
    event ← eval (py_index0 stop_events);
    print (newline +:+ "First stop event structure:");;
    v ← get event "departureTimePlanned";
    print ("  - departureTimePlanned: " +:+ str v);;
    v ← get event "departureTimeEstimated";
    print ("  - departureTimeEstimated: " +:+ str v);;
    v ← get event "isRealtimeControlled";
    print ("  - isRealtimeControlled: " +:+ str v);;
    loc ← get_or event "location" (JDict []);
    v ← get loc "name"; print ("  - location.name: " +:+ str v);;
    v ← get loc "type"; print ("  - location.type: " +:+ str v);;
    props ← get_or loc "properties" (JDict []);
    keys ← eval (py_keys props);
    v ← eval (py_slice 5 keys);
    print ("  - location.properties: " +:+ str v);;
    trans ← get_or event "transportation" (JDict []);
    v ← get trans "number"; print ("  - transportation.number: " +:+ str v);;
    v ← get trans "name"; print ("  - transportation.name: " +:+ str v);;
    v ← get trans "iconId"; print ("  - transportation.iconId: " +:+ str v);;
    product ← get_or trans "product" (JDict []);
    v ← get product "class";
    print ("  - transportation.product.class: " +:+ str v);;
    destination ← get_or trans "destination" (JDict []);
    v ← get destination "name";
    print ("  - transportation.destination.name: " +:+ str v);;
    infos ← get_or event "infos" (JList []);
    n ← len infos;
    print ("  - infos count: " +:+ pretty n);;
    onwards ← get_or event "onwardLocations" (JList []);
    if py_truthy onwards then
      n ← len onwards;
      print ("  - onwardLocations count: " +:+ pretty n);;
      ow ← eval (py_index0 onwards);
      v ← get ow "name"; print ("    - first onwards: " +:+ str v);;
      props ← get_or ow "properties" (JDict []);
      keys ← eval (py_keys props);
      print ("    - properties: " +:+ str keys)
    else mret tt
  else mret tt.

Definition summarize_trip (data : json) : printer unit :=
  print (newline +:+ "=== TRIP RESPONSE ===");;
  version ← get data "version";
  print ("Version: " +:+ str version);;
  journeys ← get_or data "journeys" (JList []);
  n ← len journeys;
  print ("Journeys count: " +:+ pretty n);;
  if py_truthy journeys then
    journey ← eval (py_index0 journeys);
    print (newline +:+ "First journey structure:");;
    v ← get journey "interchanges"; print ("  - interchanges: " +:+ str v);;
    v ← get journey "isAdditional"; print ("  - isAdditional: " +:+ str v);;
    legs ← get_or journey "legs" (JList []);
    n ← len legs;
    print ("  - legs count: " +:+ pretty n);;
    fare ← get_or journey "fare" (JDict []);
    tickets ← get_or fare "tickets" (JList []);
    n ← len tickets;
    print ("  - fare.tickets count: " +:+ pretty n);;
    (if py_truthy tickets then
       t ← eval (py_index0 tickets);
       name ← get t "name";
       person ← get t "person";
       print ("    - first ticket: " +:+ str name +:+ " - person: " +:+ str person);;
       v ← get t "priceBrutto"; print ("    - priceBrutto: " +:+ str v);;
       props ← get_or t "properties" (JDict []);
       keys ← eval (py_keys props);
       v ← eval (py_slice 8 keys);
       print ("    - properties keys: " +:+ str v)
     else mret tt);;
    if py_truthy legs then
      leg ← eval (py_index0 legs);
      print (newline +:+ "  First leg structure:");;
      v ← get leg "duration"; print ("    - duration: " +:+ str v +:+ " seconds");;
      v ← get leg "distance"; print ("    - distance: " +:+ str v +:+ " meters");;
      v ← get leg "isRealtimeControlled";
      print ("    - isRealtimeControlled: " +:+ str v);;
      origin ← get_or leg "origin" (JDict []);
      v ← get origin "name"; print ("    - origin.name: " +:+ str v);;
      v ← get origin "departureTimePlanned";
      print ("    - origin.departureTimePlanned: " +:+ str v);;
      v ← get origin "departureTimeEstimated";
      print ("    - origin.departureTimeEstimated: " +:+ str v);;
      props ← get_or origin "properties" (JDict []);
      keys ← eval (py_keys props);
      print ("    - origin.properties keys: " +:+ str keys);;
      dest ← get_or leg "destination" (JDict []);
      v ← get dest "name"; print ("    - destination.name: " +:+ str v);;
      trans ← get_or leg "transportation" (JDict []);
      v ← get trans "number"; print ("    - transportation.number: " +:+ str v);;
      product ← get_or trans "product" (JDict []);
      v ← get product "class";
      print ("    - transportation.product.class: " +:+ str v);;
      stop_seq ← get_or leg "stopSequence" (JList []);
      n ← len stop_seq;
      print ("    - stopSequence count: " +:+ pretty n);;
      coords ← get_or leg "coords" (JList []);
      n ← len coords;
      print ("    - coords count: " +:+ pretty n);;
      infos ← get_or leg "infos" (JList []);
      n ← len infos;
      print ("    - infos (alerts) count: " +:+ pretty n);;
      (if py_truthy infos then
         info ← eval (py_index0 infos);
         title ← get_or info "title" (JStr "N/A");
         subtitle ← get_or info "subtitle" title;
         v ← eval (py_slice 60 subtitle);
         print ("      - first alert: " +:+ str v)
       else mret tt);;
      hints ← get_or leg "hints" (JList []);
      n ← len hints;
      print ("    - hints count: " +:+ pretty n);;
      props ← get_or leg "properties" (JDict []);
      keys ← eval (py_keys props);
      print ("    - properties keys: " +:+ str keys)
    else mret tt
  else mret tt.

Definition summarize_add_info (data : json) : printer unit :=
  print (newline +:+ "=== ADD_INFO (SERVICE ALERTS) RESPONSE ===");;
  version ← get data "version";
  print ("Version: " +:+ str version);;
  timestamp ← get data "timestamp";
  print ("Timestamp: " +:+ str timestamp);;
  infos ← get_or data "infos" (JDict []);
  current ← get_or infos "current" (JList []);
  n ← len current;
  print ("Current alerts count: " +:+ pretty n);;
  affected ← get_or infos "affected" (JDict []);
  stops ← get_or affected "stops" (JList []);
  n ← len stops;
  print ("Total affected stops: " +:+ pretty n);;
  lines ← get_or affected "lines" (JList []);
  n ← len lines;
  print ("Total affected lines: " +:+ pretty n);;
  if py_truthy current then
    alert ← eval (py_index0 current);
    print (newline +:+ "First alert structure:");;
    v ← get alert "id"; print ("  - id: " +:+ str v);;
    v ← get alert "version"; print ("  - version: " +:+ str v);;
    v ← get alert "type"; print ("  - type: " +:+ str v);;
    v ← get alert "priority"; print ("  - priority: " +:+ str v);;
    subtitle ← get_or alert "subtitle" (JStr "N/A");
    v ← eval (py_slice 60 subtitle);
    print ("  - subtitle: " +:+ str v);;
    content ← get_or alert "content" (JStr "");
    n ← len content;
    print ("  - content length: " +:+ pretty n);;
    url ← get_or alert "url" (JStr "N/A");
    v ← eval (py_slice 50 url);
    print ("  - url: " +:+ str v);;
    ts ← get_or alert "timestamps" (JDict []);
    v ← get ts "creation"; print ("  - timestamps.creation: " +:+ str v);;
    v ← get ts "lastModification";
    print ("  - timestamps.lastModification: " +:+ str v);;
    validity ← get_or ts "validity" (JList []);
    n ← len validity;
    print ("  - timestamps.validity count: " +:+ pretty n);;
    affected ← get_or alert "affected" (JDict []);
    lines ← get_or affected "lines" (JList []);
    n ← len lines;
    print ("  - affected.lines count: " +:+ pretty n);;
    stops ← get_or affected "stops" (JList []);
    n ← len stops;
    print ("  - affected.stops count: " +:+ pretty n);;
    props ← get_or alert "properties" (JDict []);
    keys ← eval (py_keys props);
    print ("  - properties keys: " +:+ str keys)
  else mret tt.

Definition summarize_coord (data : json) : printer unit :=
  print (newline +:+ "=== COORD (NEARBY) RESPONSE ===");;
  version ← get data "version";
  print ("Version: " +:+ str version);;
  locations ← get_or data "locations" (JList []);
  n ← len locations;
  print ("Locations count: " +:+ pretty n);;
  if py_truthy locations then
    loc ← eval (py_index0 locations);
    print (newline +:+ "First location structure:");;
    v ← get loc "id"; print ("  - id: " +:+ str v);;
    v ← get loc "name"; print ("  - name: " +:+ str v);;
    v ← get loc "type"; print ("  - type: " +:+ str v);;
    v ← get loc "coord"; print ("  - coord: " +:+ str v);;
    props ← get_or loc "properties" (JDict []);
    v ← get props "distance"; print ("  - properties.distance: " +:+ str v);;
    keys ← eval (py_keys props);
    v ← eval (py_slice 10 keys);
    print ("  - properties keys: " +:+ str v)
  else mret tt.

(** ** The driver *)

(** The directory of the script: the files it holds, by name. A file has a
    size in bytes, and opening and parsing it gives a document or raises. *)
Record file := File { file_size : N; file_json : result json }.

(** [f"{size / 1024:.1f}"]: the quotient to one decimal, ties to even (the
    division is exact in a double for sizes below 2^53 bytes). *)
Definition format_kb (size : N) : string :=
  let q := (10 * size / 1024)%N in
  let r := (10 * size mod 1024)%N in
  let tenths :=
    if (2 * r <? 1024)%N then q
    else if (1024 <? 2 * r)%N then (q + 1)%N
    else if N.even q then q else (q + 1)%N in
  pretty (tenths / 10)%N +:+ "." +:+ pretty (tenths mod 10)%N.

Fixpoint str_repeat (s : string) (n : nat) : string :=
  match n with
  | O => ""
  | S n' => s +:+ str_repeat s n'
  end.

(** [sub in s] *)
Fixpoint py_in (sub s : string) : bool :=
  String.prefix sub s ||
  match s with
  | EmptyString => false
  | String _ s' => py_in sub s'
  end.

(** The functions a module defines, by their global names; a call looks the
    name up when it is made. *)
Inductive pyfun :=
| FunAnalyze (f : json → string → Z → Z → result (gmap string string))
| FunSummarize (f : json → printer unit).

(** [name(data)] as a statement: the value returned is dropped. *)
Definition call (globals : gmap string pyfun) (name : string) (data : json)
    : printer unit :=
  match globals !! name with
  | None => eval (Raise NameError)
  | Some (FunSummarize f) => f data
  | Some (FunAnalyze f) => eval (f data "" 0 4);; mret tt
  end.

Definition files : list (string * string) :=
  [("stop_finder", "example_stop_finder_1_epp.json");
   ("departure_mon_1", "example_departure_mon_1_central.json");
   ("departure_mon_2", "example_departure_mon_2_circular_quay.json");
   ("trip_1", "example_trip_1.json");
   ("trip_2", "example_trip_2.json");
   ("add_info_1", "example_add_info_1_all_modes.json");
   ("add_info_2", "example_add_info_2_only_trains.json");
   ("coord_gis", "example_coord_1_gis_point.json");
   ("coord_bus", "example_coord_2_bus_point.json");
   ("coord_poi", "example_coord_3_poi_point.json")].

(** The [if]/[elif] chain at the end of the loop body *)
Definition dispatch (globals : gmap string pyfun) (name : string) (data : json)
    : printer unit :=
  if py_in "stop_finder" name then call globals "summarize_stop_finder" data
  else if py_in "departure_mon" name then call globals "summarize_departure_mon" data
  else if py_in "trip" name then call globals "summarize_trip" data
  else if py_in "add_info" name then call globals "summarize_add_info" data
  else if py_in "coord" name then call globals "summarize_coord" data
  else mret tt.

(** One iteration of the loop of [main] *)
Definition main_entry (globals : gmap string pyfun) (fs : gmap string file)
    : string * string → printer unit :=
  λ '(name, filename),
  match fs !! filename with
  | None => print ("File not found: " +:+ filename)
  | Some f =>
      print (newline +:+ str_repeat "=" 60);;
      print ("ANALYZING: " +:+ filename);;
      print (str_repeat "=" 60);;
      data ← eval (file_json f);
      print ("File size: " +:+ format_kb (file_size f) +:+ " KB");;
      dispatch globals name data
  end.

(** [for x in xs: body], printing *)
Definition for_each {A : Type} (body : A → printer unit) : list A → printer unit :=
  fix loop (items : list A) : printer unit :=
    match items with
    | [] => mret tt
    | it :: rest => body it;; loop rest
    end.

Definition main (globals : gmap string pyfun) (fs : gmap string file) : printer unit :=
  for_each (main_entry globals fs) files.

(** The module as written *)
Definition module_globals : gmap string pyfun :=
  list_to_map
    [("analyze_json_structure", FunAnalyze analyze_json_structure);
     ("summarize_stop_finder", FunSummarize summarize_stop_finder);
     ("summarize_departure_mon", FunSummarize summarize_departure_mon);
     ("summarize_trip", FunSummarize summarize_trip);
     ("summarize_add_info", FunSummarize summarize_add_info);
     ("summarize_coord", FunSummarize summarize_coord)].

(** The categories of the dispatch in the order they are tried, each with
    the summarizer it selects. *)
Definition categories : list (string * string) :=
  [("stop_finder", "summarize_stop_finder");
   ("departure_mon", "summarize_departure_mon");
   ("trip", "summarize_trip");
   ("add_info", "summarize_add_info");
   ("coord", "summarize_coord")].

(** The first category that occurs in a logical name *)
Definition first_category (name : string) : option (string * string) :=
  find (λ c, py_in c.1 name) categories.

(** ** The shape of a response

    What a summarizer relies on: which values are objects, arrays or
    strings. Every key of an object may be missing; a key that is listed and
    present has a value of the listed shape. *)

Unset Elimination Schemes.
Inductive shape :=
| SAny
| SStr
| SArr (elem : shape)
| SObj (fields : list (string * shape))
| SNullable (s : shape).
Set Elimination Schemes.

Fixpoint conforms (s : shape) (v : json) {struct s} : bool :=
  match s with
  | SAny => true
  | SStr => match v with JStr _ => true | _ => false end
  | SArr elem => match v with JList l => forallb (conforms elem) l | _ => false end
  | SObj fields =>
      match v with
      | JDict items =>
          forallb (λ '(key, s'),
            match dict_lookup key items with
            | Some x => conforms s' x
            | None => true
            end) fields
      | _ => false
      end
  | SNullable s' => match v with JNull => true | _ => conforms s' v end
  end.

Section shape_induction.
Variable P : shape → Prop.
Hypothesis Hany : P SAny.
Hypothesis Hstr : P SStr.
Hypothesis Harr : ∀ elem, P elem → P (SArr elem).
Hypothesis Hobj : ∀ fields, Forall (λ ks, P ks.2) fields → P (SObj fields).
Hypothesis Hnullable : ∀ s, P s → P (SNullable s).

End shape_induction.

(** [keys_removed v' v]: the document [v'] is [v] with keys taken out of
    objects, at any level; arrays keep their elements. *)
Unset Elimination Schemes.
Set Elimination Schemes.

(** The shape listed for a key, [SAny] for a key that is not listed. *)
Fixpoint field_shape (fields : list (string * shape)) (key : string) : shape :=
  match fields with
  | [] => SAny
  | (k, s) :: rest => if String.eqb k key then s else field_shape rest key
  end.

Definition location_shape : shape :=
  SObj [("parent", SNullable (SObj [])); ("properties", SNullable (SObj []))].

Definition stop_finder_shape : shape :=
  SObj [("locations", SArr location_shape)].

Definition stop_event_shape : shape :=
  SObj [("location", SObj [("properties", SObj [])]);
        ("transportation", SObj [("product", SObj []); ("destination", SObj [])]);
        ("infos", SArr SAny);
        ("onwardLocations", SArr (SObj [("properties", SObj [])]))].

Definition departure_mon_shape : shape :=
  SObj [("locations", SArr SAny); ("stopEvents", SArr stop_event_shape)].

Definition leg_shape : shape :=
  SObj [("origin", SObj [("properties", SObj [])]);
        ("destination", SObj []);
        ("transportation", SObj [("product", SObj [])]);
        ("stopSequence", SArr SAny);
        ("coords", SArr SAny);
        ("infos", SArr (SObj [("subtitle", SStr); ("title", SStr)]));
        ("hints", SArr SAny);
        ("properties", SObj [])].

Definition journey_shape : shape :=
  SObj [("legs", SArr leg_shape);
        ("fare", SObj [("tickets", SArr (SObj [("properties", SObj [])]))])].

Definition trip_shape : shape :=
  SObj [("journeys", SArr journey_shape)].

Definition affected_shape : shape :=
  SObj [("stops", SArr SAny); ("lines", SArr SAny)].

Definition alert_shape : shape :=
  SObj [("subtitle", SStr); ("content", SStr); ("url", SStr);
        ("timestamps", SObj [("validity", SArr SAny)]);
        ("affected", affected_shape);
        ("properties", SObj [])].

Definition add_info_shape : shape :=
  SObj [("infos", SObj [("current", SArr alert_shape); ("affected", affected_shape)])].

Definition coord_shape : shape :=
  SObj [("locations", SArr (SObj [("properties", SObj [])]))].

(** [c] ends without an exception. *)
Definition runs {A} (c : printer A) : Prop := ∃ a, outcome c = Ok a.

(** [{"version": "10.2.11.48", "locations": [{"id": "207610",
      "name": "Epping Station", "type": "stop", "parent": {"name": "Epping"}}]}] *)
Definition epping_doc : json :=
  JDict [("version", JStr "10.2.11.48");
         ("locations",
          JList [JDict [("id", JStr "207610");
                        ("name", JStr "Epping Station");
                        ("type", JStr "stop");
                        ("parent", JDict [("name", JStr "Epping")])]])].


(** [{"journeys": [{"legs": [{"duration": 300,
      "infos": [{"title": "Lift out of service"}]}]}]}] *)
Definition journeys_doc : json :=
  JDict [("journeys",
          JList [JDict [("legs",
            JList [JDict [("duration", JInt 300);
                          ("infos", JList [JDict [("title", JStr "Lift out of service")]])]])]])].



(** [items.get(key)] of an object's items: the value, [None] when the key
    is missing. *)
Definition field (items : list (string * json)) (key : string) : json :=
  match dict_lookup key items with
  | Some v => v
  | None => JNull
  end.








(** [{"journeys": [{"legs": [{"infos": [{"subtitle": "x", "title": 5}]}]}]}]
    and the same document without the subtitle. *)
Definition numeric_title_doc : json :=
  JDict [("journeys", JList [JDict [("legs", JList [JDict [("infos",
    JList [JDict [("subtitle", JStr "x"); ("title", JInt 5)]])]])]])].

Definition numeric_title_only_doc : json :=
  JDict [("journeys", JList [JDict [("legs", JList [JDict [("infos",
    JList [JDict [("title", JInt 5)]])]])]])].


(** ** Example documents *)

(** Six objects deep: [{"a": {"b": {"c": {"d": {"e": {"f": 1}}}}}}]. *)
Definition deep_doc : json :=
  JDict [("a", JDict [("b", JDict [("c", JDict [("d", JDict [("e",
    JDict [("f", JInt 1)])])])])])].

(** [{"a": {"b": {}}, "a.b": 1}]: the key "a.b" has the path string of the
    object under "a", "b". *)
Definition shadowed_object_doc : json :=
  JDict [("a", JDict [("b", JDict [])]); ("a.b", JInt 1)].

(** [{"stops": {"ids": [1, 2]}, "stops.ids": "none"}] *)
Definition shadowed_array_doc : json :=
  JDict [("stops", JDict [("ids", JList [JInt 1; JInt 2])]);
         ("stops.ids", JStr "none")].

(** [{"version": "10.2", "locations": [{"id": "10101", "coord": [-33.7, 151.0],
      "parent": {"name": "Epping"}}, 7], "empty": []}] *)
Definition stops_doc : json :=
  JDict [("version", JStr "10.2");
         ("locations",
          JList [JDict [("id", JStr "10101");
                        ("coord", JList [JFloat (PyFloat "-33.7"); JFloat (PyFloat "151.0")]);
                        ("parent", JDict [("name", JStr "Epping")])];
                 JInt 7]);
         ("empty", JList [])].

(** [{"note": s}] with [s] sixty letters long. *)
Definition long_note : string :=
  "abcdefghijklmnopqrstuvwxyzabcdefghijklmnopqrstuvwxyzabcdefgh".

Definition note_doc : json := JDict [("note", JStr long_note)].

(** A directory that holds only [example_trip_1.json], 2560 bytes, with the
    empty object in it. *)
Definition one_trip_fs : gmap string file :=
  {["example_trip_1.json" := File 2560 (Ok (JDict []))]}.

(** ** How deep a document goes

    The number of nested calls a document needs: one for an object, plus the
    most that its values need, an array counting through its first element
    when that is an object. *)
Fixpoint height (v : json) {struct v} : Z :=
  match v with
  | JDict items =>
      1 + fold_right (λ '(_, value) acc,
            Z.max
              match value with
              | JDict _ => height value
              | JList (v0 :: _) => if isinstance_dict v0 then height v0 else 0
              | _ => 0
              end acc) 0 items
  | _ => 0
  end.

(** ** Where the analyzer does not look

    [same_view v v']: the two documents differ at most in the elements of
    arrays after the first (their number is the same) and in first elements
    that are not objects. *)
Unset Elimination Schemes.
Inductive same_view : json → json → Prop :=
| same_view_refl v : same_view v v
| same_view_dict items items' :
    Forall2 (λ kv kv', kv.1 = kv'.1 ∧ same_view kv.2 kv'.2) items items' →
    same_view (JDict items) (JDict items')
| same_view_list_dict x x' l l' :
    isinstance_dict x = true → same_view x x' → length l = length l' →
    same_view (JList (x :: l)) (JList (x' :: l'))
| same_view_list_other x x' l l' :
    isinstance_dict x = false → isinstance_dict x' = false → length l = length l' →
    same_view (JList (x :: l)) (JList (x' :: l')).
Set Elimination Schemes.

(** ** Keys that cannot be mistaken for a path

    A plain key is not empty and has no dot and no opening bracket in it. In
    a plain document every key of every object is plain (and, as in any
    [dict], the keys of an object differ from each other). *)
Definition plain_key (k : string) : bool :=
  str_truthy k && negb (has_char "."%char k) && negb (has_char "["%char k).

Fixpoint distinct (keys : list string) : bool :=
  match keys with
  | [] => true
  | k :: rest => negb (existsb (String.eqb k) rest) && distinct rest
  end.

Fixpoint plain_doc (v : json) {struct v} : bool :=
  match v with
  | JDict items =>
      distinct (map fst items) &&
      forallb (λ '(key, value), plain_key key && plain_doc value) items
  | JList l => forallb plain_doc l
  | _ => true
  end.

(** The part of a path string that follows the first key. *)
Fixpoint suffix (sp : list seg) : string :=
  match sp with
  | [] => ""
  | Key k :: sp' => "." +:+ k +:+ suffix sp'
  | Idx0 :: sp' => "[0]" +:+ suffix sp'
  end.

(** A text that is empty or begins with a dot or an opening bracket. *)
Definition stops (t : string) : bool :=
  match t with
  | EmptyString => true
  | String c _ => Ascii.eqb "."%char c || Ascii.eqb "["%char c
  end.

(** The steps of a position whose keys are all plain. *)
Definition plain_seg (s : seg) : Prop :=
  match s with
  | Key k => plain_key k = true
  | Idx0 => True
  end.

(** [{"locations": [{"id": "10101"}, 7, 8], "empty": []}] and
    [{"locations": [{"id": "10101"}, null, {"id": "x"}], "empty": []}] *)
Definition three_stops_doc : json :=
  JDict [("locations", JList [JDict [("id", JStr "10101")]; JInt 7; JInt 8]);
         ("empty", JList [])].

Definition three_other_stops_doc : json :=
  JDict [("locations", JList [JDict [("id", JStr "10101")]; JNull;
                              JDict [("id", JStr "x")]]);
         ("empty", JList [])].

(** The shape the driver's dispatch expects of the document behind a
    logical name: that of the category whose summarizer it calls. *)
Definition shape_for (name : string) : shape :=
  if py_in "stop_finder" name then stop_finder_shape
  else if py_in "departure_mon" name then departure_mon_shape
  else if py_in "trip" name then trip_shape
  else if py_in "add_info" name then add_info_shape
  else if py_in "coord" name then coord_shape
  else SAny.

(** The three lines printed before a file is opened. *)
Definition file_header (filename : string) : list string :=
  [newline +:+ str_repeat "=" 60; "ANALYZING: " +:+ filename; str_repeat "=" 60].

(** A directory in which [example_trip_1.json] is not valid JSON. *)
Definition broken_trip_fs : gmap string file :=
  {["example_trip_1.json" := File 17 (Raise JSONDecodeError)]}.

(** * Properties of [analyze_json_structure] *)

Lemma writes_app prefix es1 es2 m :
  writes prefix (es1 ++ es2) m = writes prefix es2 (writes prefix es1 m).
Proof. apply fold_left_app. Qed.

Lemma writes_union prefix es m :
  writes prefix es m = writes prefix es ∅ ∪ m.
Proof.
  revert m. induction es as [|e es IH]; intros m; simpl.
  - by rewrite (left_id_L ∅ (∪)).
  - unfold writes in *. simpl. rewrite IH, (IH (<[_ := _]> ∅)).
    rewrite <-(assoc_L (∪)). f_equal.
    by rewrite insert_union_singleton_l, insert_empty.
Qed.

Lemma writes_under_key prefix k es m :
  writes prefix (map (λ e, (Key k :: e.1, e.2)) es) m
  = writes (if str_truthy prefix then prefix +:+ "." +:+ k else k) es m.
Proof.
  revert m. induction es as [|e es IH]; intros m; [done|].
  unfold writes in *. simpl. by rewrite IH.
Qed.

Lemma writes_under_idx0 prefix k es m :
  writes prefix (map (λ e, (Key k :: Idx0 :: e.1, e.2)) es) m
  = writes ((if str_truthy prefix then prefix +:+ "." +:+ k else k) +:+ "[0]") es m.
Proof.
  revert m. induction es as [|e es IH]; intros m; [done|].
  unfold writes in *. simpl. by rewrite IH.
Qed.

Lemma analyze_json_structure_unfold obj prefix depth max_depth :
  analyze_json_structure obj prefix depth max_depth
  = if depth >? max_depth then Ok ∅ else
    match obj with
    | JDict items => for_items (analyze_item prefix depth max_depth) items ∅
    | _ => Ok ∅
    end.
Proof. destruct obj; reflexivity. Qed.

Lemma for_items_cons {A S} (body : A → S → result S) it rest s :
  for_items body (it :: rest) s = (s' ← body it s; for_items body rest s').
Proof. reflexivity. Qed.

Lemma entries_unfold obj depth max_depth :
  entries obj depth max_depth
  = if depth >? max_depth then [] else
    match obj with
    | JDict items => flat_map (item_entries depth max_depth) items
    | _ => []
    end.
Proof. destruct obj; reflexivity. Qed.

Lemma result_bind_Ok {A B} (a : A) (k : A → result B) : (Ok a ≫= k) = k a.
Proof. reflexivity. Qed.

Lemma writes_cons prefix e es m :
  writes prefix (e :: es) m = writes prefix es (<[render prefix e.1 := describe e.2]> m).
Proof. reflexivity. Qed.

(** Induction in which the case of an object also has the hypothesis for
    the first element of each of its array values: the only values the
    analyzer recurses into. *)
Lemma json_first_ind (P : json → Prop) :
  (∀ v, isinstance_dict v = false → P v) →
  (∀ items,
     Forall (λ kv, P kv.2 ∧ ∀ v0 l, kv.2 = JList (v0 :: l) → P v0) items →
     P (JDict items)) →
  ∀ v, P v.
Proof.
  intros Hother Hdict v.
  cut (P v ∧ ∀ v0 l, v = JList (v0 :: l) → P v0); [by intros [? _]|].
  induction v as [| | | | |l IH|items IH] using json_ind;
    try (split; [by apply Hother|done]).
  - split; [by apply Hother|].
    intros v0 l' [= ->]. by apply Forall_cons_1 in IH as [[? _] _].
  - split; [by apply Hdict|done].
Qed.

(** The mapping returned is the one obtained by performing the writes of
    [entries] in order; in particular a result is always returned. *)
Lemma analyze_json_structure_writes obj :
  ∀ prefix depth max_depth,
    analyze_json_structure obj prefix depth max_depth
    = Ok (writes prefix (entries obj depth max_depth) ∅).
Proof.
  induction obj as [v Hv|items IH] using json_first_ind; intros prefix depth md;
    rewrite analyze_json_structure_unfold, entries_unfold.
  { destruct (depth >? md); [done|]. by destruct v. }
  destruct (depth >? md); [done|].
  generalize (∅ : gmap string string) as acc.
  induction IH as [|[k v] items [Hv Hv0] _ IHitems]; intros acc; [done|].
  cbn [snd] in Hv, Hv0.
  assert (analyze_item prefix depth md (k, v) acc
          = Ok (writes prefix (item_entries depth md (k, v)) acc)) as Hitem.
  { unfold analyze_item, item_entries. rewrite writes_cons. cbn [fst snd render].
    destruct v as [| | | | |l|d]; try done.
    - destruct l as [|v0 l]; [done|].
      change (0 <? length (v0 :: l))%nat with true. cbv iota.
      destruct (isinstance_dict v0); [|done].
      rewrite (Hv0 _ _ eq_refl), result_bind_Ok. f_equal.
      rewrite writes_under_idx0. unfold dict_update. by rewrite <-writes_union.
    - rewrite Hv, result_bind_Ok. f_equal.
      rewrite writes_under_key. unfold dict_update. by rewrite <-writes_union. }
  rewrite for_items_cons, Hitem, result_bind_Ok. cbn [flat_map].
  by rewrite writes_app, IHitems.
Qed.

(** *** What [entries] lists: exactly the reached positions *)

Lemma key_count_nonneg sp : 0 ≤ key_count sp.
Proof. induction sp as [|[k|] sp IH]; simpl; lia. Qed.

Lemma entry_path_key sp : entry_path sp = true → ∃ k sp', sp = Key k :: sp'.
Proof. destruct sp as [|[k|] sp]; [done|eauto|done]. Qed.

Lemma entry_path_cons_key k sp :
  entry_path sp = true → entry_path (Key k :: sp) = true.
Proof. intros H. destruct (entry_path_key _ H) as (k' & sp' & ->). done. Qed.

Lemma entry_path_cons_idx0 k sp :
  entry_path sp = true → entry_path (Key k :: Idx0 :: sp) = true.
Proof. intros H. destruct (entry_path_key _ H) as (k' & sp' & ->). done. Qed.

Lemma entries_sound obj :
  ∀ depth max_depth sp v,
    In (sp, v) (entries obj depth max_depth) →
    entry_path sp = true ∧ at_path obj sp v ∧ depth + call_depth sp ≤ max_depth.
Proof.
  induction obj as [x Hx|items IH] using json_first_ind;
    intros depth md sp v; rewrite entries_unfold.
  { destruct (depth >? md); [done|]. by destruct x. }
  destruct (Z.gtb_spec depth md) as [|Hle]; [done|].
  rewrite in_flat_map. intros ([k value] & Hin & Hsp). unfold item_entries in Hsp.
  rewrite Forall_forall in IH.
  destruct (IH _ (proj2 (list_elem_of_In _ _) Hin)) as [IHv IHv0].
  cbn [snd] in IHv, IHv0.
  destruct Hsp as [[= <- <-]|Hsp].
  { split_and!; [done|by eapply at_key, at_here|unfold call_depth; simpl; lia]. }
  destruct value as [| | | | |l|d]; try done.
  - destruct l as [|v0 l]; [done|].
    destruct (isinstance_dict v0) eqn:Hd; [|done].
    apply in_map_iff in Hsp as ([sp' v'] & [= <- <-] & He).
    apply (IHv0 _ _ eq_refl) in He as (Hp & Hat & Hdepth).
    split_and!.
    + by apply entry_path_cons_idx0.
    + eapply at_key; [done|]. by apply at_idx0.
    + unfold call_depth in *. simpl. lia.
  - apply in_map_iff in Hsp as ([sp' v'] & [= <- <-] & He).
    apply IHv in He as (Hp & Hat & Hdepth).
    split_and!.
    + by apply entry_path_cons_key.
    + by eapply at_key.
    + unfold call_depth in *. simpl. lia.
Qed.

Lemma entries_complete_upto n :
  ∀ sp, (length sp ≤ n)%nat →
  ∀ obj depth max_depth v,
    entry_path sp = true → at_path obj sp v →
    depth + call_depth sp ≤ max_depth →
    In (sp, v) (entries obj depth max_depth).
Proof.
  induction n as [|n IH]; intros sp Hlen obj depth md v Hp Hat Hdepth.
  { destruct sp; [done|simpl in Hlen; lia]. }
  destruct (entry_path_key _ Hp) as (k & rest & ->).
  inversion Hat as [|items k' v1 sp' w Hin Hrest|]; subst.
  pose proof (key_count_nonneg rest) as Hnn.
  rewrite entries_unfold.
  destruct (Z.gtb_spec depth md) as [Hgt|_];
    [unfold call_depth in Hdepth; simpl in Hdepth; lia|].
  apply in_flat_map. exists (k, v1). split; [done|]. unfold item_entries.
  destruct rest as [|[k2|] rest].
  - inversion Hrest; subst. by left.
  - right. inversion Hrest; subst.
    apply in_map_iff. exists (Key k2 :: rest, v). split; [done|].
    apply IH; [simpl in *; lia|done|done|].
    unfold call_depth in *. simpl in *. lia.
  - right. inversion Hrest as [| |x l sp' w Hx]; subst.
    destruct rest as [|[k3|] rest]; [done| |done].
    inversion Hx; subst. cbn [isinstance_dict].
    apply in_map_iff. exists (Key k3 :: rest, v). split; [done|].
    apply IH; [simpl in *; lia|done|done|].
    unfold call_depth in *. simpl in *. lia.
Qed.

Lemma reached_entries doc max_depth sp v :
  reached doc max_depth sp v ↔ In (sp, v) (entries doc 0 max_depth).
Proof.
  split.
  - intros (Hp & Hat & Hd). by eapply entries_complete_upto.
  - intros H. apply entries_sound in H as (? & ? & ?). by split_and!.
Qed.

(** *** Looking up a path string after the writes *)

Lemma writes_lookup prefix es :
  ∀ m p s,
    writes prefix es m !! p = Some s →
    m !! p = Some s ∨ ∃ e, In e es ∧ render prefix e.1 = p ∧ describe e.2 = s.
Proof.
  induction es as [|e es IH]; intros m p s; [by left|].
  rewrite writes_cons. intros [H|(e' & ? & ? & ?)]%IH.
  - apply lookup_insert_Some in H as [[? ?]|[? ?]]; [|by left].
    right. exists e. split_and!; [by left|done..].
  - right. exists e'. split_and!; [by right|done..].
Qed.

Lemma writes_keeps prefix es :
  ∀ m p, is_Some (m !! p) → is_Some (writes prefix es m !! p).
Proof.
  induction es as [|e es IH]; intros m p Hp; [done|].
  rewrite writes_cons. apply IH. rewrite lookup_insert_is_Some'. by right.
Qed.

Lemma writes_lookup_is_Some prefix es :
  ∀ m e, In e es → is_Some (writes prefix es m !! render prefix e.1).
Proof.
  induction es as [|e' es IH]; intros m e; [done|].
  rewrite writes_cons. intros [->|Hin]; [|by apply IH].
  apply writes_keeps. rewrite lookup_insert_is_Some'. by left.
Qed.

(** Every entry of the result is the summary of a reached value whose
    position has the entry's path string. *)
Lemma analyze_entry_sound doc max_depth m p s :
  analyze_json_structure doc "" 0 max_depth = Ok m →
  m !! p = Some s →
  ∃ sp v, reached doc max_depth sp v ∧ render "" sp = p ∧ s = describe v.
Proof.
  rewrite analyze_json_structure_writes. intros [= <-] Hp.
  apply writes_lookup in Hp as [Hp|([sp v] & Hin & <- & <-)]; [done|].
  exists sp, v. by rewrite reached_entries.
Qed.

(** Every reached value has an entry under the path string of its position. *)
Lemma analyze_entry_exists doc max_depth m sp v :
  analyze_json_structure doc "" 0 max_depth = Ok m →
  reached doc max_depth sp v →
  is_Some (m !! render "" sp).
Proof.
  rewrite analyze_json_structure_writes, reached_entries. intros [= <-] Hin.
  by apply (writes_lookup_is_Some "" _ ∅ (sp, v)).
Qed.

(** When no other reached value shares the path string, the entry is the
    summary of the value. *)
Lemma analyze_entry_unshared doc max_depth m sp v :
  analyze_json_structure doc "" 0 max_depth = Ok m →
  reached doc max_depth sp v →
  (∀ sp' v', reached doc max_depth sp' v' → render "" sp' = render "" sp → v' = v) →
  m !! render "" sp = Some (describe v).
Proof.
  intros Hm Hr Huniq.
  destruct (analyze_entry_exists _ _ _ _ _ Hm Hr) as [s Hs].
  destruct (analyze_entry_sound _ _ _ _ _ Hm Hs) as (sp' & v' & Hr' & Hp & ->).
  by rewrite Hs, (Huniq _ _ Hr' Hp).
Qed.

(** *** Positions that continue below an array *)

Lemma steps_ok_app_idx0_key b sp k :
  steps_ok b sp = true → steps_ok b (sp ++ [Idx0; Key k]) = true.
Proof.
  revert b. induction sp as [|[k'|] sp IH]; intros b; simpl.
  - by intros ->.
  - apply IH.
  - intros [-> ?]%andb_true_iff. by apply IH.
Qed.

Lemma steps_ok_after_idx0 b pre rest :
  steps_ok b (pre ++ Idx0 :: rest) = true → ∃ k rest', rest = Key k :: rest'.
Proof.
  revert b. induction pre as [|[k'|] pre IH]; intros b; simpl.
  - intros [_ H]%andb_true_iff. destruct rest as [|[k|] rest]; [done|eauto|done].
  - apply IH.
  - intros [_ H]%andb_true_iff. by eapply IH.
Qed.

Lemma at_path_app doc sp1 u sp2 v :
  at_path doc sp1 u → at_path u sp2 v → at_path doc (sp1 ++ sp2) v.
Proof.
  induction 1 as [|items k v1 sp w Hin _ IH|x l sp w _ IH]; intros H2; [done|..].
  - eapply at_key; [done|]. by apply IH.
  - apply at_idx0. by apply IH.
Qed.

Lemma at_path_split doc sp1 sp2 v :
  at_path doc (sp1 ++ sp2) v → ∃ u, at_path doc sp1 u ∧ at_path u sp2 v.
Proof.
  revert doc. induction sp1 as [|s sp1 IH]; intros doc H.
  - exists doc. split; [apply at_here|done].
  - inversion H as [|items k v1 sp w Hin Hrest|x l sp w Hrest]; subst.
    + destruct (IH _ Hrest) as (u & ? & ?). exists u. split; [by eapply at_key|done].
    + destruct (IH _ Hrest) as (u & ? & ?). exists u. split; [by apply at_idx0|done].
Qed.

Lemma key_count_app sp1 sp2 : key_count (sp1 ++ sp2) = key_count sp1 + key_count sp2.
Proof. induction sp1 as [|[k|] sp1 IH]; simpl; lia. Qed.

(** A position only continues below an array through a first element that
    is a mapping. *)
Lemma entry_path_through_array doc sp v (pre rest : list seg) :
  entry_path sp = true → at_path doc sp v → sp = (pre ++ Idx0 :: rest)%list →
  ∃ d l, at_path doc pre (JList (JDict d :: l)).
Proof.
  intros Hp Hat ->.
  destruct (steps_ok_after_idx0 _ _ _ Hp) as (k & rest' & ->).
  apply at_path_split in Hat as (u & Hpre & Hsuf).
  inversion Hsuf as [| |x l sp w Hx]; subst. inversion Hx; subst. eauto.
Qed.

Lemma str_take_length n s : (String.length (str_take n s) ≤ n)%nat.
Proof.
  revert s. induction n as [|n IH]; intros [|c s]; simpl; try lia.
  specialize (IH s). lia.
Qed.

Lemma str_take_all n s : (String.length s ≤ n)%nat → str_take n s = s.
Proof.
  revert s. induction n as [|n IH]; intros [|c s]; simpl; try done; try lia.
  intros H. f_equal. apply IH. lia.
Qed.

Lemma str_take_prefix n s : ∃ rest, s = str_take n s +:+ rest.
Proof.
  revert s. induction n as [|n IH]; intros [|c s]; simpl; eauto.
  destruct (IH s) as [rest Hrest]. exists rest. by rewrite Hrest at 1.
Qed.

Lemma describe_scalar v :
  is_scalar v = true → describe v = type_name v +:+ ": " +:+ str_take 50 (repr v).
Proof. by destruct v. Qed.

(** A call deeper than the limit returns the empty mapping at once. *)
Lemma analyze_json_structure_cut obj prefix depth max_depth :
  depth > max_depth → analyze_json_structure obj prefix depth max_depth = Ok ∅.
Proof.
  intros H. rewrite analyze_json_structure_unfold.
  destruct (Z.gtb_spec depth max_depth); [done|lia].
Qed.

(** Discharges "no other reached value has this path string" on a concrete
    document by going through the positions the document has. *)
Ltac by_entries :=
  let sp := fresh "sp" in
  let v := fresh "v" in
  let Hr := fresh "Hr" in
  let Hp := fresh "Hp" in
  intros sp v Hr Hp; apply reached_entries in Hr; vm_compute in Hr;
  repeat (destruct Hr as [Hr|Hr];
          [injection Hr as <- <-;
           first [reflexivity | vm_compute in Hp; discriminate Hp]|]);
  destruct Hr.

(** *** The depth limit *)

(** C1: a call whose depth exceeds the limit returns the empty mapping at
    once; and every entry of the mapping returned for a document is the
    summary of a value of that document, found at a position with the
    entry's path string whose number of keys is at most [max_depth + 1]: the
    entry was written by a call of depth at most [max_depth] (at most five
    keys for the default limit 4), however deep the document is nested. *)
Theorem analyze_json_structure_within_depth doc max_depth m :
  analyze_json_structure doc "" 0 max_depth = Ok m →
  (∀ obj prefix depth,
     depth > max_depth → analyze_json_structure obj prefix depth max_depth = Ok ∅) ∧
  (∀ p s, m !! p = Some s →
     ∃ sp v,
       entry_path sp = true ∧ at_path doc sp v ∧ render "" sp = p ∧
       s = describe v ∧ key_count sp ≤ max_depth + 1).
Proof.
  intros Hm. split.
  - intros obj prefix depth. apply analyze_json_structure_cut.
  - intros p s Hp.
    destruct (analyze_entry_sound _ _ _ _ _ Hm Hp) as (sp & v & (? & ? & Hd) & ? & ?).
    exists sp, v. unfold call_depth in Hd. split_and!; [done..|lia].
Qed.

Lemma analyze_json_structure_within_depth_witness :
  ∃ sp v,
    entry_path sp = true ∧ at_path deep_doc sp v ∧ render "" sp = "a.b.c.d.e" ∧
    "object (1 keys)" = describe v ∧ key_count sp ≤ 4 + 1.
Proof.
  destruct (analyze_json_structure_within_depth deep_doc 4
              (writes "" (entries deep_doc 0 4) ∅)) as [_ Hentries].
  - apply analyze_json_structure_writes.
  - apply (Hentries "a.b.c.d.e" "object (1 keys)"). vm_compute. reflexivity.
Defined.

(** The sixth level of [deep_doc] leaves no entry under the default limit. *)
Example deep_doc_sixth_level :
  ∃ m, analyze_json_structure deep_doc "" 0 4 = Ok m ∧
       m !! "a.b.c.d.e" = Some "object (1 keys)" ∧ m !! "a.b.c.d.e.f" = None.
Proof. eexists. split; [reflexivity|]. by vm_compute. Qed.

(** *** No exception *)

(** C2: for every value, prefix, depth and limit, [analyze_json_structure]
    returns a mapping; no exception is raised, whatever keys are missing,
    whichever arrays are empty and whatever the elements of arrays are. *)
Theorem analyze_json_structure_never_raises obj prefix depth max_depth :
  (∃ m, analyze_json_structure obj prefix depth max_depth = Ok m) ∧
  ∀ e, analyze_json_structure obj prefix depth max_depth ≠ Raise e.
Proof. rewrite analyze_json_structure_writes. split; [eauto|done]. Qed.

(** *** Objects *)

(** C3 as stated fails: in [{"a": {"b": {}}, "a.b": 1}] the object under
    "a", "b" is reached, and the entry for "a.b" is that of the integer. *)
Lemma object_entry_overwritten :
  ¬ (∀ sp d m,
       analyze_json_structure shadowed_object_doc "" 0 4 = Ok m →
       reached shadowed_object_doc 4 sp (JDict d) →
       m !! render "" sp = Some ("object (" +:+ pretty (length d) +:+ " keys)")).
Proof.
  intros H.
  specialize (H [Key "a"; Key "b"] [] (writes "" (entries shadowed_object_doc 0 4) ∅)).
  assert (reached shadowed_object_doc 4 [Key "a"; Key "b"] (JDict [])) as Hr.
  { apply reached_entries. vm_compute. tauto. }
  specialize (H (analyze_json_structure_writes _ _ _ _) Hr).
  vm_compute in H. discriminate H.
Qed.

(** What the analyzer returns for that document. *)
Example shadowed_object_doc_result :
  analyze_json_structure shadowed_object_doc "" 0 4
  = Ok (<["a.b" := "int: 1"]> (<["a" := "object (1 keys)"]> ∅)).
Proof. vm_compute. reflexivity. Qed.

(** C3, amended: a dictionary with n keys that is the value of a key, reached
    within the depth limit, has the entry "object (n keys)" under its path
    string, provided no other reached value has the same path string. *)
Theorem object_entry_unshared doc max_depth m sp d :
  analyze_json_structure doc "" 0 max_depth = Ok m →
  reached doc max_depth sp (JDict d) →
  (∀ sp' v', reached doc max_depth sp' v' →
             render "" sp' = render "" sp → v' = JDict d) →
  m !! render "" sp = Some ("object (" +:+ pretty (length d) +:+ " keys)").
Proof. intros Hm Hr Hu. by rewrite (analyze_entry_unshared _ _ _ _ _ Hm Hr Hu). Qed.

Lemma object_entry_unshared_witness :
  ∃ m, analyze_json_structure stops_doc "" 0 4 = Ok m ∧
       m !! "locations[0].parent" = Some "object (1 keys)".
Proof.
  exists (writes "" (entries stops_doc 0 4) ∅).
  split; [apply analyze_json_structure_writes|].
  apply (object_entry_unshared stops_doc 4 _
           [Key "locations"; Idx0; Key "parent"] [("name", JStr "Epping")]).
  - apply analyze_json_structure_writes.
  - apply reached_entries. vm_compute. tauto.
  - by_entries.
Defined.

(** *** Arrays *)

(** C4 as stated fails: in [{"stops": {"ids": [1, 2]}, "stops.ids": "none"}]
    the array is reached, and the entry for "stops.ids" is that of the
    string. *)
Lemma array_entry_overwritten :
  ¬ (∀ sp l m,
       analyze_json_structure shadowed_array_doc "" 0 4 = Ok m →
       reached shadowed_array_doc 4 sp (JList l) →
       m !! render "" sp
         = Some (if decide (l = []) then "array (empty)"
                 else "array (" +:+ pretty (length l) +:+ " items)")).
Proof.
  intros H.
  specialize (H [Key "stops"; Key "ids"] [JInt 1; JInt 2]
                (writes "" (entries shadowed_array_doc 0 4) ∅)).
  assert (reached shadowed_array_doc 4 [Key "stops"; Key "ids"]
            (JList [JInt 1; JInt 2])) as Hr.
  { apply reached_entries. vm_compute. tauto. }
  specialize (H (analyze_json_structure_writes _ _ _ _) Hr).
  vm_compute in H. discriminate H.
Qed.

(** What the analyzer returns for that document. *)
Example shadowed_array_doc_result :
  analyze_json_structure shadowed_array_doc "" 0 4
  = Ok (<["stops.ids" := "str: 'none'"]> (<["stops" := "object (1 keys)"]> ∅)).
Proof. vm_compute. reflexivity. Qed.

(** C4, amended: an array that is the value of a key, reached within the
    depth limit, has under its path string the entry "array (empty)" when it
    is empty and "array (k items)" when it has k > 0 items, provided no other
    reached value has the same path string. When its first element is a
    mapping, every key of that mapping handled within the depth limit has an
    entry under the path string followed by [[0]]; and the position of every
    entry continues below an array only through a first element that is a
    mapping. *)
Theorem array_entry_unshared doc max_depth m sp l :
  analyze_json_structure doc "" 0 max_depth = Ok m →
  reached doc max_depth sp (JList l) →
  (∀ sp' v', reached doc max_depth sp' v' →
             render "" sp' = render "" sp → v' = JList l) →
  m !! render "" sp
    = Some (if decide (l = []) then "array (empty)"
            else "array (" +:+ pretty (length l) +:+ " items)") ∧
  (∀ d l' k v,
     l = JDict d :: l' → In (k, v) d → call_depth sp + 1 ≤ max_depth →
     is_Some (m !! render "" (sp ++ [Idx0; Key k]))) ∧
  (∀ p s, m !! p = Some s →
     ∃ sp' v', reached doc max_depth sp' v' ∧ render "" sp' = p ∧ s = describe v' ∧
       ∀ pre rest, sp' = (pre ++ Idx0 :: rest)%list →
         ∃ d l', at_path doc pre (JList (JDict d :: l'))).
Proof.
  intros Hm Hr Hu. split_and!.
  - rewrite (analyze_entry_unshared _ _ _ _ _ Hm Hr Hu). by destruct l.
  - intros d l' k v -> Hin Hdepth. destruct Hr as (Hp & Hat & Hd).
    apply (analyze_entry_exists doc max_depth m _ v Hm). split_and!.
    + by apply steps_ok_app_idx0_key.
    + eapply at_path_app; [done|]. apply at_idx0. eapply at_key; [done|apply at_here].
    + unfold call_depth in *. rewrite key_count_app. simpl. lia.
  - intros p s Hp.
    destruct (analyze_entry_sound _ _ _ _ _ Hm Hp) as (sp' & v' & Hr' & ? & ?).
    exists sp', v'. split_and!; [done..|]. intros pre rest Heq.
    destruct Hr' as (? & ? & _). by eapply entry_path_through_array.
Qed.

Lemma array_entry_unshared_witness :
  ∃ m, analyze_json_structure stops_doc "" 0 4 = Ok m ∧
       m !! "locations" = Some "array (2 items)" ∧
       is_Some (m !! "locations[0].id").
Proof.
  exists (writes "" (entries stops_doc 0 4) ∅).
  split; [apply analyze_json_structure_writes|].
  destruct (array_entry_unshared stops_doc 4 (writes "" (entries stops_doc 0 4) ∅)
              [Key "locations"]
              [JDict [("id", JStr "10101");
                      ("coord", JList [JFloat (PyFloat "-33.7"); JFloat (PyFloat "151.0")]);
                      ("parent", JDict [("name", JStr "Epping")])];
               JInt 7]) as (Hentry & Hinto & _).
  - apply analyze_json_structure_writes.
  - apply reached_entries. vm_compute. tauto.
  - by_entries.
  - split; [exact Hentry|].
    apply (Hinto _ _ "id" (JStr "10101") eq_refl); [simpl; tauto|by vm_compute].
Defined.

(** An empty array and an array whose first element is not a mapping. *)
Example stops_doc_arrays :
  ∃ m, analyze_json_structure stops_doc "" 0 4 = Ok m ∧
       m !! "empty" = Some "array (empty)" ∧
       m !! "locations[0].coord" = Some "array (2 items)" ∧
       m !! "locations[0].coord[0]" = None.
Proof. eexists. split; [reflexivity|]. by vm_compute. Qed.

(** *** Scalars *)

(** C5: every entry written for a scalar [v] is [type(v).__name__], a colon
    and a blank, and [repr(v)[:50]]: at most 50 characters of the
    representation, all of it when it has no more than 50; and every scalar
    reached within the depth limit has an entry under its path string. *)
Theorem scalar_entries_truncated doc max_depth m :
  analyze_json_structure doc "" 0 max_depth = Ok m →
  (∀ p s, m !! p = Some s →
     ∃ sp v, reached doc max_depth sp v ∧ render "" sp = p ∧ s = describe v ∧
       (is_scalar v = true →
          s = type_name v +:+ ": " +:+ str_take 50 (repr v) ∧
          (String.length (str_take 50 (repr v)) ≤ 50)%nat ∧
          (∃ rest, repr v = str_take 50 (repr v) +:+ rest) ∧
          ((String.length (repr v) ≤ 50)%nat → str_take 50 (repr v) = repr v))) ∧
  (∀ sp v, reached doc max_depth sp v → is_scalar v = true →
     is_Some (m !! render "" sp)).
Proof.
  intros Hm. split.
  - intros p s Hp.
    destruct (analyze_entry_sound _ _ _ _ _ Hm Hp) as (sp & v & ? & ? & ->).
    exists sp, v. split_and!; [done..|]. intros Hs. split_and!.
    + by apply describe_scalar.
    + apply str_take_length.
    + apply str_take_prefix.
    + apply str_take_all.
  - intros sp v Hr _. by eapply analyze_entry_exists.
Qed.

Lemma scalar_entries_truncated_witness :
  ∃ m, analyze_json_structure note_doc "" 0 4 = Ok m ∧ is_Some (m !! "note").
Proof.
  exists (writes "" (entries note_doc 0 4) ∅).
  split; [apply analyze_json_structure_writes|].
  destruct (scalar_entries_truncated note_doc 4 (writes "" (entries note_doc 0 4) ∅))
    as [_ Hsome].
  - apply analyze_json_structure_writes.
  - apply (Hsome [Key "note"] (JStr long_note)); [|reflexivity].
    apply reached_entries. vm_compute. tauto.
Defined.

(** The sixty letters of [long_note] are cut after the opening quote and 49
    letters. *)
Example note_doc_entry :
  ∃ m, analyze_json_structure note_doc "" 0 4 = Ok m ∧
       m !! "note" = Some ("str: 'abcdefghijklmnopqrstuvwxyzabcdefghijklmnopqrstuvw").
Proof. eexists. split; [reflexivity|]. by vm_compute. Qed.

(** *** A document that is not a mapping *)

(** C10: for a document whose top-level value is not a mapping (an array, a
    string, a number, a boolean or null) the result is the empty mapping;
    the first element of a top-level array is not looked at. *)
Theorem analyze_json_structure_not_mapping obj prefix depth max_depth :
  isinstance_dict obj = false →
  analyze_json_structure obj prefix depth max_depth = Ok ∅.
Proof.
  intros H. rewrite analyze_json_structure_unfold.
  destruct (depth >? max_depth); [done|]. by destruct obj.
Qed.

Lemma analyze_json_structure_not_mapping_witness :
  analyze_json_structure (JList [JDict [("a", JInt 1)]]) "" 0 4 = Ok ∅.
Proof. by apply analyze_json_structure_not_mapping. Defined.

(** * Properties of the driver *)

Lemma printer_bind_ret_l {A B} (a : A) (k : A → printer B) : (mret a ≫= k) = k a.
Proof. unfold mret, printer_ret, mbind, printer_bind. by destruct (k a). Qed.

Lemma printer_bind_assoc {A B C} (c : printer A) (k : A → printer B)
    (k' : B → printer C) :
  ((c ≫= k) ≫= k') = (c ≫= λ a, k a ≫= k').
Proof.
  unfold mbind, printer_bind. destruct c as [out [a|e]]; [|done].
  destruct (k a) as [out1 [b|e]]; [|done].
  destruct (k' b) as [out2 r]. by rewrite (assoc_L (++)).
Qed.

Lemma output_print_bind {B} line (k : unit → printer B) :
  output (print line ≫= k) = line :: output (k tt).
Proof. unfold print, mbind, printer_bind. by destruct (k tt). Qed.


Lemma printer_bind_Ok {A B} out (a : A) (k : A → printer B) :
  (Printer out (Ok a) ≫= k) = Printer (out ++ output (k a)) (outcome (k a)).
Proof. unfold mbind, printer_bind. by destruct (k a). Qed.

Lemma printer_bind_Raise {A B} out e (k : A → printer B) :
  (Printer out (Raise e) ≫= k) = Printer out (Raise e).
Proof. reflexivity. Qed.

Lemma printer_eta {A} (c : printer A) : Printer (output c) (outcome c) = c.
Proof. by destruct c. Qed.

Lemma eval_Ok_bind {A B} (a : A) (k : A → printer B) : (eval (Ok a) ≫= k) = k a.
Proof. apply (printer_bind_ret_l a k). Qed.

Lemma for_each_cons {A} (body : A → printer unit) it rest :
  for_each body (it :: rest) = (body it;; for_each body rest).
Proof. reflexivity. Qed.

Lemma for_each_app {A} (body : A → printer unit) l1 l2 :
  for_each body (l1 ++ l2) = (for_each body l1;; for_each body l2).
Proof.
  induction l1 as [|it l1 IH].
  - change (for_each body []) with (mret tt : printer unit).
    by rewrite printer_bind_ret_l.
  - cbn [app]. by rewrite !for_each_cons, IH, printer_bind_assoc.
Qed.

Lemma for_each_ext {A} (body1 body2 : A → printer unit) l :
  (∀ it, body1 it = body2 it) → for_each body1 l = for_each body2 l.
Proof.
  intros H. induction l as [|it l IH]; [done|].
  by rewrite !for_each_cons, H, IH.
Qed.

(** The chain of tests selects the first category, in the order of
    [categories], that occurs in the name. *)
Lemma dispatch_first_category globals name data :
  dispatch globals name data
  = match first_category name with
    | Some c => call globals c.2 data
    | None => mret tt
    end.
Proof.
  unfold dispatch, first_category, categories. cbn [find fst snd].
  by repeat (destruct (py_in _ name); [done|]).
Qed.

(** *** A missing file *)

(** C7: for an entry of the list whose file is missing, the iteration prints
    "File not found: " and the file name and does nothing else (nothing is
    parsed, no summarizer is called); the loop then goes on with the entries
    that follow: the run is the run over the entries before, then the
    message, then the run over all the entries after. *)
Theorem main_missing_file globals fs pre name filename post :
  files = (pre ++ (name, filename) :: post)%list →
  fs !! filename = None →
  main_entry globals fs (name, filename) = print ("File not found: " +:+ filename) ∧
  main globals fs
    = (for_each (main_entry globals fs) pre;;
       print ("File not found: " +:+ filename);;
       for_each (main_entry globals fs) post) ∧
  (∀ out, for_each (main_entry globals fs) pre = Printer out (Ok tt) →
     main globals fs
     = Printer (out ++ ("File not found: " +:+ filename)
                    :: output (for_each (main_entry globals fs) post))
               (outcome (for_each (main_entry globals fs) post))).
Proof.
  intros Hfiles Hfs.
  assert (main_entry globals fs (name, filename)
          = print ("File not found: " +:+ filename)) as Hentry.
  { unfold main_entry. by rewrite Hfs. }
  assert (main globals fs
    = (for_each (main_entry globals fs) pre;;
       print ("File not found: " +:+ filename);;
       for_each (main_entry globals fs) post)) as Hmain.
  { unfold main. by rewrite Hfiles, for_each_app, for_each_cons, Hentry. }
  split_and!; [done..|].
  intros out Hpre. rewrite Hmain, Hpre.
  unfold mbind, printer_bind, print.
  by destruct (for_each (main_entry globals fs) post).
Qed.

Lemma main_missing_file_witness :
  main_entry module_globals one_trip_fs ("trip_2", "example_trip_2.json")
  = print "File not found: example_trip_2.json" ∧
  main module_globals one_trip_fs
  = Printer
      ["File not found: example_stop_finder_1_epp.json";
       "File not found: example_departure_mon_1_central.json";
       "File not found: example_departure_mon_2_circular_quay.json";
       newline +:+ str_repeat "=" 60;
       "ANALYZING: example_trip_1.json";
       str_repeat "=" 60;
       "File size: 2.5 KB";
       newline +:+ "=== TRIP RESPONSE ===";
       "Version: None";
       "Journeys count: 0";
       "File not found: example_trip_2.json";
       "File not found: example_add_info_1_all_modes.json";
       "File not found: example_add_info_2_only_trains.json";
       "File not found: example_coord_1_gis_point.json";
       "File not found: example_coord_2_bus_point.json";
       "File not found: example_coord_3_poi_point.json"]
      (Ok tt).
Proof.
  destruct (main_missing_file module_globals one_trip_fs (firstn 4 files)
              "trip_2" "example_trip_2.json" (skipn 5 files))
    as (Hentry & _ & Hout); [reflexivity..|].
  split; [exact Hentry|].
  rewrite (Hout (output (for_each (main_entry module_globals one_trip_fs)
                           (firstn 4 files)))).
  - vm_compute. reflexivity.
  - vm_compute. reflexivity.
Defined.

(** *** Dispatch *)

(** C8: for every logical name of the fixed list, when its file is there and
    parses to a document, the iteration prints the header and the size and
    then calls, with that document, the summarizer of the first category, in
    the order stop_finder, departure_mon, trip, add_info, coord, that occurs
    in the name, and no other. *)
Theorem main_dispatches_first_match globals fs name filename f data :
  In (name, filename) files →
  fs !! filename = Some f →
  file_json f = Ok data →
  ∃ category summarizer,
    first_category name = Some (category, summarizer) ∧
    In (category, summarizer) categories ∧
    dispatch globals name data = call globals summarizer data ∧
    main_entry globals fs (name, filename)
    = (print (newline +:+ str_repeat "=" 60);;
       print ("ANALYZING: " +:+ filename);;
       print (str_repeat "=" 60);;
       print ("File size: " +:+ format_kb (file_size f) +:+ " KB");;
       call globals summarizer data).
Proof.
  intros Hin Hfs Hjson.
  assert (∃ c, first_category name = Some c ∧ In c categories) as ([cat fn] & Hc & Hcin).
  { unfold files in Hin. simpl in Hin.
    repeat (destruct Hin as [[= <- <-]|Hin]; [eexists; split; [reflexivity|simpl; tauto]|]).
    done. }
  exists cat, fn. split_and!; [done..| |].
  - by rewrite dispatch_first_category, Hc.
  - unfold main_entry. by rewrite Hfs, Hjson, eval_Ok_bind, dispatch_first_category, Hc.
Qed.

Lemma main_dispatches_first_match_witness :
  ∃ category summarizer,
    first_category "trip_1" = Some (category, summarizer) ∧
    In (category, summarizer) categories ∧
    dispatch module_globals "trip_1" (JDict [])
    = call module_globals summarizer (JDict []) ∧
    main_entry module_globals one_trip_fs ("trip_1", "example_trip_1.json")
    = (print (newline +:+ str_repeat "=" 60);;
       print "ANALYZING: example_trip_1.json";;
       print (str_repeat "=" 60);;
       print ("File size: " +:+ format_kb 2560 +:+ " KB");;
       call module_globals summarizer (JDict [])).
Proof.
  apply (main_dispatches_first_match module_globals one_trip_fs
           "trip_1" "example_trip_1.json" (File 2560 (Ok (JDict []))) (JDict [])).
  - simpl; tauto.
  - reflexivity.
  - reflexivity.
Defined.

(** The summarizer selected for each of the ten names. *)
Example files_categories :
  map (λ nf, snd <$> first_category nf.1) files
  = [Some "summarize_stop_finder";
     Some "summarize_departure_mon"; Some "summarize_departure_mon";
     Some "summarize_trip"; Some "summarize_trip";
     Some "summarize_add_info"; Some "summarize_add_info";
     Some "summarize_coord"; Some "summarize_coord"; Some "summarize_coord"].
Proof. reflexivity. Qed.

(** *** The analyzer is not used *)

Lemma printer_bind_ext {A B} (c : printer A) (k1 k2 : A → printer B) :
  (∀ a, k1 a = k2 a) → (c ≫= k1) = (c ≫= k2).
Proof.
  intros H. unfold mbind, printer_bind.
  destruct c as [out [a|e]]; [|done]. by rewrite H.
Qed.

Lemma categories_not_analyzer c :
  In c categories → c.2 ≠ "analyze_json_structure".
Proof.
  unfold categories. simpl. intros H.
  repeat (destruct H as [<-|H]; [done|]). done.
Qed.

(** The driver only looks up the five summarizers: two modules that agree
    on every name but [analyze_json_structure] run the same. *)
Lemma main_ext globals1 globals2 fs :
  (∀ name, name ≠ "analyze_json_structure" → globals1 !! name = globals2 !! name) →
  main globals1 fs = main globals2 fs.
Proof.
  intros Hagree. unfold main. apply for_each_ext. intros [name filename].
  unfold main_entry. destruct (fs !! filename) as [f|]; [|done].
  do 4 (apply printer_bind_ext; intros ?).
  rewrite !dispatch_first_category.
  destruct (first_category name) as [c|] eqn:Hc; [|done].
  apply find_some in Hc as [Hc _]. apply categories_not_analyzer in Hc.
  unfold call. by rewrite (Hagree _ Hc).
Qed.

(** C9: what the driver prints and how it ends is the same when
    [analyze_json_structure] is removed from the module, and the same
    whatever is bound to that name: the driver never calls it. *)
Theorem main_without_analyzer globals fs :
  main (delete "analyze_json_structure" globals) fs = main globals fs ∧
  ∀ g, main (<["analyze_json_structure" := g]> globals) fs = main globals fs.
Proof.
  split; [|intros g]; apply main_ext; intros name Hname.
  - by rewrite lookup_delete_ne.
  - by rewrite lookup_insert_ne.
Qed.

(** The module as written, with one file present. *)
Example main_without_analyzer_trip :
  main (delete "analyze_json_structure" module_globals) one_trip_fs
  = main module_globals one_trip_fs ∧
  output (main module_globals one_trip_fs)
  = ["File not found: example_stop_finder_1_epp.json";
     "File not found: example_departure_mon_1_central.json";
     "File not found: example_departure_mon_2_circular_quay.json";
     newline +:+ str_repeat "=" 60;
     "ANALYZING: example_trip_1.json";
     str_repeat "=" 60;
     "File size: 2.5 KB";
     newline +:+ "=== TRIP RESPONSE ===";
     "Version: None";
     "Journeys count: 0";
     "File not found: example_trip_2.json";
     "File not found: example_add_info_1_all_modes.json";
     "File not found: example_add_info_2_only_trains.json";
     "File not found: example_coord_1_gis_point.json";
     "File not found: example_coord_2_bus_point.json";
     "File not found: example_coord_3_poi_point.json"].
Proof.
  split; [apply main_ext; intros name Hname; by rewrite lookup_delete_ne|].
  vm_compute. reflexivity.
Qed.

(** * Properties of the summarizers *)

Lemma runs_ret {A} (a : A) : runs (mret a : printer A).
Proof. by exists a. Qed.

Lemma runs_bind {A B} (c : printer A) (k : A → printer B) :
  runs c → (∀ a, runs (k a)) → runs (c ≫= k).
Proof.
  intros [a Ha] Hk. destruct c as [out r]. simpl in Ha. subst r.
  destruct (Hk a) as [b Hb]. exists b.
  unfold mbind, printer_bind. destruct (k a) as [out' r']. done.
Qed.

Lemma runs_print {B} line (k : unit → printer B) :
  runs (k tt) → runs (print line ≫= k).
Proof. intros H. apply runs_bind; [by exists tt|by intros []]. Qed.

Lemma conforms_obj_inv fields v :
  conforms (SObj fields) v = true → ∃ items, v = JDict items.
Proof. destruct v; try done. eauto. Qed.

Lemma conforms_arr_inv elem v :
  conforms (SArr elem) v = true →
  ∃ l, v = JList l ∧ ∀ x, In x l → conforms elem x = true.
Proof.
  destruct v as [| | | | |l|]; try done. simpl.
  rewrite forallb_forall. eauto.
Qed.

Lemma conforms_str_inv v : conforms SStr v = true → ∃ s, v = JStr s.
Proof. destruct v; try done. eauto. Qed.

Lemma conforms_field fields items key x :
  conforms (SObj fields) (JDict items) = true →
  dict_lookup key items = Some x →
  conforms (field_shape fields key) x = true.
Proof.
  simpl. rewrite forallb_forall. intros Hall Hx.
  induction fields as [|[k s] fields IH]; [done|]. simpl.
  destruct (String.eqb_spec k key) as [->|Hne].
  - specialize (Hall (key, s) ltac:(by left)). simpl in Hall. by rewrite Hx in Hall.
  - apply IH. intros kv Hin. apply Hall. by right.
Qed.

(** A lookup with a default of the right shape gives a value of that shape. *)
Lemma runs_get {B} fields o key default (k : json → printer B) :
  conforms (SObj fields) o = true →
  conforms (field_shape fields key) default = true →
  (∀ v, conforms (field_shape fields key) v = true → runs (k v)) →
  runs (eval (py_get o key default) ≫= k).
Proof.
  intros Ho Hd Hk. destruct (conforms_obj_inv _ _ Ho) as [items ->].
  unfold py_get. rewrite eval_Ok_bind. apply Hk.
  destruct (dict_lookup key items) as [x|] eqn:Hx; [|done].
  by eapply conforms_field.
Qed.

(** A key is either missing, and every lookup gives its default, or present
    with a value of the listed shape, and every lookup gives that value. *)
Lemma py_get_cases fields o key :
  conforms (SObj fields) o = true →
  (∀ default, py_get o key default = Ok default) ∨
  (∃ x, conforms (field_shape fields key) x = true ∧
        ∀ default, py_get o key default = Ok x).
Proof.
  intros Ho. destruct (conforms_obj_inv _ _ Ho) as [items ->]. unfold py_get.
  destruct (dict_lookup key items) as [x|] eqn:Hx; [right|by left].
  exists x. split; [by eapply conforms_field|done].
Qed.

Lemma runs_len_arr {B} elem o (k : nat → printer B) :
  conforms (SArr elem) o = true → (∀ n, runs (k n)) → runs (len o ≫= k).
Proof.
  intros Ho Hk. destruct (conforms_arr_inv _ _ Ho) as (l & -> & _).
  unfold len, py_len. by rewrite eval_Ok_bind.
Qed.

Lemma runs_len_str {B} o (k : nat → printer B) :
  conforms SStr o = true → (∀ n, runs (k n)) → runs (len o ≫= k).
Proof.
  intros Ho Hk. destruct (conforms_str_inv _ Ho) as (s & ->).
  unfold len, py_len. by rewrite eval_Ok_bind.
Qed.

(** A non-empty array of a shape has a first element of the element shape. *)
Lemma runs_index0 {B} elem o (k : json → printer B) :
  conforms (SArr elem) o = true → py_truthy o = true →
  (∀ x, conforms elem x = true → runs (k x)) →
  runs (eval (py_index0 o) ≫= k).
Proof.
  intros Ho Ht Hk. destruct (conforms_arr_inv _ _ Ho) as (l & -> & Hl).
  destruct l as [|x l]; [done|]. unfold py_index0. rewrite eval_Ok_bind.
  apply Hk, Hl. by left.
Qed.

Lemma runs_keys {B} fields o (k : json → printer B) :
  conforms (SObj fields) o = true →
  (∀ v, conforms (SArr SStr) v = true → runs (k v)) →
  runs (eval (py_keys o) ≫= k).
Proof.
  intros Ho Hk. destruct (conforms_obj_inv _ _ Ho) as [items ->].
  unfold py_keys. rewrite eval_Ok_bind. apply Hk. simpl.
  apply forallb_forall. intros x (kv & <- & _)%in_map_iff. done.
Qed.

Lemma runs_slice_arr {B} elem n o (k : json → printer B) :
  conforms (SArr elem) o = true → (∀ v, runs (k v)) →
  runs (eval (py_slice n o) ≫= k).
Proof.
  intros Ho Hk. destruct (conforms_arr_inv _ _ Ho) as (l & -> & _).
  unfold py_slice. by rewrite eval_Ok_bind.
Qed.

Lemma runs_slice_str {B} n o (k : json → printer B) :
  conforms SStr o = true → (∀ v, runs (k v)) →
  runs (eval (py_slice n o) ≫= k).
Proof.
  intros Ho Hk. destruct (conforms_str_inv _ Ho) as (s & ->).
  unfold py_slice. by rewrite eval_Ok_bind.
Qed.

Lemma conforms_nullable_truthy s v :
  conforms (SNullable s) v = true → py_truthy v = true → conforms s v = true.
Proof. by destruct v. Qed.

Ltac unfold_shapes :=
  unfold stop_finder_shape, location_shape, departure_mon_shape, stop_event_shape,
    trip_shape, journey_shape, leg_shape, add_info_shape, alert_shape,
    affected_shape, coord_shape in *.

(** After a lookup: name the value and keep what is known of its shape. *)
Ltac intro_value :=
  let v := fresh "v" in
  let Hv := fresh "Hv" in
  intros v Hv; cbn [field_shape String.eqb Ascii.eqb Bool.eqb] in Hv;
  try (lazymatch type of Hv with conforms SAny _ = true => clear Hv end).

(** One statement of a summarizer, given the shapes of the values in scope. *)
Ltac run_step :=
  lazymatch goal with
  | |- runs (mret _) => apply runs_ret
  | |- runs (print _ ≫= _) => apply runs_print
  | |- runs (print _) => by exists tt
  | H : conforms (SObj ?fs) ?o = true |- runs (get ?o ?key ≫= _) =>
      apply (runs_get fs o key JNull _ H); [first [reflexivity|assumption]|intro_value]
  | H : conforms (SObj ?fs) ?o = true |- runs (get_or ?o ?key ?d ≫= _) =>
      apply (runs_get fs o key d _ H); [first [reflexivity|assumption]|intro_value]
  | H : conforms (SObj ?fs) ?o = true |- runs (eval (py_get ?o ?key ?d) ≫= _) =>
      apply (runs_get fs o key d _ H); [first [reflexivity|assumption]|intro_value]
  | H : conforms (SArr ?e) ?o = true |- runs (len ?o ≫= _) =>
      apply (runs_len_arr e o _ H); intros ?
  | H : conforms SStr ?o = true |- runs (len ?o ≫= _) =>
      apply (runs_len_str o _ H); intros ?
  | H : conforms (SArr ?e) ?o = true, Ht : py_truthy ?o = true
    |- runs (eval (py_index0 ?o) ≫= _) =>
      apply (runs_index0 e o _ H Ht); intro_value
  | H : conforms (SObj ?fs) ?o = true |- runs (eval (py_keys ?o) ≫= _) =>
      apply (runs_keys fs o _ H); intro_value
  | H : conforms (SArr ?e) ?o = true |- runs (eval (py_slice _ ?o) ≫= _) =>
      apply (runs_slice_arr e _ o _ H); intros ?
  | H : conforms SStr ?o = true |- runs (eval (py_slice _ ?o) ≫= _) =>
      apply (runs_slice_str _ o _ H); intros ?
  | H : conforms (SNullable ?s) ?o = true |- runs (if py_truthy ?o then _ else _) =>
      let Ht := fresh "Ht" in
      destruct (py_truthy o) eqn:Ht;
      [apply (conforms_nullable_truthy _ _ H) in Ht|]
  | |- runs (if py_truthy ?o then _ else _) =>
      let Ht := fresh "Ht" in
      destruct (py_truthy o) eqn:Ht
  | |- runs ((if py_truthy ?o then _ else _) ≫= _) =>
      apply runs_bind; [|intros ?]
  end.

Lemma summarize_stop_finder_runs data :
  conforms stop_finder_shape data = true → runs (summarize_stop_finder data).
Proof.
  intros Hdata. unfold summarize_stop_finder. unfold_shapes.
  repeat lazymatch goal with
         | |- runs (get _ "parent" ≫= _) => fail
         | _ => run_step
         end.
  lazymatch goal with
  | H : conforms (SObj _) ?loc = true |- runs (get ?loc "parent" ≫= _) =>
      change (get loc "parent") with (eval (py_get loc "parent" JNull));
      change (get_or loc "parent" (JDict []))
        with (eval (py_get loc "parent" (JDict [])));
      destruct (py_get_cases _ _ "parent" H) as [Hnone|(p & Hp & Hsome)]
  end.
  - rewrite !Hnone, eval_Ok_bind. cbn [py_truthy]. rewrite printer_bind_ret_l.
    repeat run_step.
  - rewrite !Hsome, eval_Ok_bind. cbn [field_shape String.eqb Ascii.eqb Bool.eqb] in Hp.
    destruct (py_truthy p) eqn:Htp.
    + apply (conforms_nullable_truthy _ _ Hp) in Htp. rewrite eval_Ok_bind.
      repeat run_step.
    + rewrite printer_bind_ret_l. repeat run_step.
Qed.

Lemma summarize_departure_mon_runs data :
  conforms departure_mon_shape data = true → runs (summarize_departure_mon data).
Proof.
  intros Hdata. unfold summarize_departure_mon. unfold_shapes. repeat run_step.
Qed.

Lemma summarize_trip_runs data :
  conforms trip_shape data = true → runs (summarize_trip data).
Proof.
  intros Hdata. unfold summarize_trip. unfold_shapes. repeat run_step.
Qed.

Lemma summarize_add_info_runs data :
  conforms add_info_shape data = true → runs (summarize_add_info data).
Proof.
  intros Hdata. unfold summarize_add_info. unfold_shapes. repeat run_step.
Qed.

Lemma summarize_coord_runs data :
  conforms coord_shape data = true → runs (summarize_coord data).
Proof.
  intros Hdata. unfold summarize_coord. unfold_shapes. repeat run_step.
Qed.

Lemma runs_unit (c : printer unit) : runs c → outcome c = Ok tt.
Proof. by intros [[] ?]. Qed.


(** *** Absent keys *)





(** That document is outside the shape of a trip response, and so is the
    one without the subtitle: the title of an alert is not a string. *)
Example numeric_title_doc_outside_shape :
  conforms trip_shape numeric_title_doc = false ∧
  conforms trip_shape numeric_title_only_doc = false ∧
  outcome (summarize_trip numeric_title_doc) = Ok tt ∧
  outcome (summarize_trip numeric_title_only_doc) = Raise TypeError.
Proof. split_and!; vm_compute; reflexivity. Qed.







(** With every key missing, each summarizer prints its header, [None] for
    the version and zero for the counts. *)
Example summarizers_on_empty_document :
  summarize_stop_finder (JDict [])
  = Printer [newline +:+ "=== STOP FINDER RESPONSE ==="; "Version: None";
             "Locations count: 0"] (Ok tt) ∧
  summarize_departure_mon (JDict [])
  = Printer [newline +:+ "=== DEPARTURE MONITOR RESPONSE ==="; "Version: None";
             "Locations count: 0"; "Stop events count: 0"] (Ok tt) ∧
  summarize_trip (JDict [])
  = Printer [newline +:+ "=== TRIP RESPONSE ==="; "Version: None";
             "Journeys count: 0"] (Ok tt) ∧
  summarize_add_info (JDict [])
  = Printer [newline +:+ "=== ADD_INFO (SERVICE ALERTS) RESPONSE ===";
             "Version: None"; "Timestamp: None"; "Current alerts count: 0";
             "Total affected stops: 0"; "Total affected lines: 0"] (Ok tt) ∧
  summarize_coord (JDict [])
  = Printer [newline +:+ "=== COORD (NEARBY) RESPONSE ==="; "Version: None";
             "Locations count: 0"] (Ok tt).
Proof. split_and!; vm_compute; reflexivity. Qed.

(** A response with one location named "Epping Station": the name is
    printed as it is, and the keys the location lacks print [None]. *)
Example summarize_stop_finder_epping :
  summarize_stop_finder epping_doc
  = Printer [newline +:+ "=== STOP FINDER RESPONSE ===";
             "Version: 10.2.11.48";
             "Locations count: 1";
             newline +:+ "First location structure:";
             "  - id: 207610";
             "  - name: Epping Station";
             "  - disassembledName: None";
             "  - type: stop";
             "  - coord: None";
             "  - modes: None";
             "  - matchQuality: None";
             "  - isBest: None";
             "  - parent: Epping"] (Ok tt).
Proof. vm_compute. reflexivity. Qed.

(** Outside the shape a summarizer can raise: a title that is a number,
    used in place of a missing subtitle, cannot be sliced. *)
Example summarize_trip_numeric_title :
  outcome (summarize_trip
    (JDict [("journeys", JList [JDict [("legs", JList [JDict [("infos",
       JList [JDict [("title", JInt 5)]])]])]])]))
  = Raise TypeError.
Proof. vm_compute. reflexivity. Qed.

(** * Further properties of [analyze_json_structure] *)

(** Every entry written by a call below [prefix] at [depth]: its position,
    value and depth. *)
Lemma analyze_entry_sound_at obj prefix depth max_depth m p s :
  analyze_json_structure obj prefix depth max_depth = Ok m →
  m !! p = Some s →
  ∃ sp v, entry_path sp = true ∧ at_path obj sp v ∧
          depth + call_depth sp ≤ max_depth ∧
          render prefix sp = p ∧ s = describe v.
Proof.
  rewrite analyze_json_structure_writes. intros [= <-] Hp.
  apply writes_lookup in Hp as [Hp|([sp v] & Hin & <- & <-)]; [done|].
  apply entries_sound in Hin as (? & ? & ?). by exists sp, v.
Qed.

(** *** The paths of the result *)

(** X1: the keys of the returned mapping are exactly the path strings of the
    positions reached within the depth limit. *)
Theorem analyze_json_structure_paths doc max_depth m p :
  analyze_json_structure doc "" 0 max_depth = Ok m →
  (is_Some (m !! p) ↔ ∃ sp v, reached doc max_depth sp v ∧ render "" sp = p).
Proof.
  intros Hm. split.
  - intros [s Hs].
    destruct (analyze_entry_sound _ _ _ _ _ Hm Hs) as (sp & v & ? & ? & _). eauto.
  - intros (sp & v & Hr & <-). by eapply analyze_entry_exists.
Qed.

Lemma analyze_json_structure_paths_witness :
  ∃ m, analyze_json_structure stops_doc "" 0 4 = Ok m ∧
       (is_Some (m !! "locations[0].id")
        ↔ ∃ sp v, reached stops_doc 4 sp v ∧ render "" sp = "locations[0].id").
Proof.
  exists (writes "" (entries stops_doc 0 4) ∅).
  split; [apply analyze_json_structure_writes|].
  apply (analyze_json_structure_paths stops_doc 4). apply analyze_json_structure_writes.
Defined.

(** X2: a larger depth limit never loses a path: what has an entry under
    [max_depth] has one under every [max_depth' ≥ max_depth]. *)
Theorem analyze_json_structure_limit_mono doc max_depth max_depth' m m' p :
  max_depth ≤ max_depth' →
  analyze_json_structure doc "" 0 max_depth = Ok m →
  analyze_json_structure doc "" 0 max_depth' = Ok m' →
  is_Some (m !! p) → is_Some (m' !! p).
Proof.
  intros Hle Hm Hm' [s Hs].
  destruct (analyze_entry_sound _ _ _ _ _ Hm Hs) as (sp & v & (? & ? & ?) & <- & _).
  apply (analyze_entry_exists doc max_depth' m' sp v Hm'). split_and!; [done..|lia].
Qed.

Lemma analyze_json_structure_limit_mono_witness :
  ∃ m', analyze_json_structure deep_doc "" 0 4 = Ok m' ∧ is_Some (m' !! "a.b").
Proof.
  exists (writes "" (entries deep_doc 0 4) ∅).
  split; [apply analyze_json_structure_writes|].
  apply (analyze_json_structure_limit_mono deep_doc 1 4
           (writes "" (entries deep_doc 0 1) ∅) _ "a.b").
  - lia.
  - apply analyze_json_structure_writes.
  - apply analyze_json_structure_writes.
  - vm_compute. eauto.
Defined.

(** *** Documents that fit under the limit *)

Lemma height_unfold v :
  height v
  = match v with
    | JDict items =>
        1 + fold_right (λ '(_, value) acc,
              Z.max
                match value with
                | JDict _ => height value
                | JList (v0 :: _) => if isinstance_dict v0 then height v0 else 0
                | _ => 0
                end acc) 0 items
    | _ => 0
    end.
Proof. by destruct v. Qed.

Lemma height_nonneg v : 0 ≤ height v.
Proof.
  rewrite height_unfold. destruct v as [| | | | | |items]; try lia.
  induction items as [|[k value] items IH]; simpl; lia.
Qed.

Lemma entries_fit obj :
  ∀ depth max_depth max_depth',
    depth + height obj ≤ max_depth + 1 → max_depth ≤ max_depth' →
    entries obj depth max_depth' = entries obj depth max_depth.
Proof.
  induction obj as [v Hv|items IH] using json_first_ind;
    intros depth md md' Hfit Hle; rewrite !entries_unfold.
  { destruct v; try done; by repeat case_match. }
  rewrite height_unfold in Hfit.
  assert (0 ≤ fold_right (λ '(_, value) acc,
            Z.max
              match value with
              | JDict _ => height value
              | JList (v0 :: _) => if isinstance_dict v0 then height v0 else 0
              | _ => 0
              end acc) 0 items) as Hnn.
  { clear. induction items as [|[k value] items IH]; simpl; lia. }
  destruct (Z.gtb_spec depth md) as [|_]; [lia|].
  destruct (Z.gtb_spec depth md') as [|_]; [lia|].
  clear Hnn. induction IH as [|[k value] items [Hv Hv0] _ IHitems]; [done|].
  cbn [snd] in Hv, Hv0. cbn [fold_right flat_map] in *.
  f_equal; [|apply IHitems; lia].
  unfold item_entries. f_equal.
  destruct value as [| | | | |l|d]; try done.
  - destruct l as [|v0 l]; [done|].
    destruct (isinstance_dict v0); [|done].
    rewrite (Hv0 _ _ eq_refl (depth + 1) md md'); [done|lia..].
  - rewrite (Hv (depth + 1) md md'); [done|lia..].
Qed.

(** X3: when the document is no deeper than the limit allows
    ([height doc ≤ max_depth + 1]), every larger limit gives the same
    mapping: nothing was cut off. *)
Theorem analyze_json_structure_fits doc max_depth max_depth' :
  height doc ≤ max_depth + 1 → max_depth ≤ max_depth' →
  analyze_json_structure doc "" 0 max_depth'
  = analyze_json_structure doc "" 0 max_depth.
Proof.
  intros Hfit Hle. rewrite !analyze_json_structure_writes.
  by rewrite (entries_fit doc 0 max_depth max_depth') by lia.
Qed.

Lemma analyze_json_structure_fits_witness :
  analyze_json_structure stops_doc "" 0 100 = analyze_json_structure stops_doc "" 0 2.
Proof. apply analyze_json_structure_fits; vm_compute; discriminate. Defined.

(** The bound is sharp: [deep_doc] has height six, and the limit 5 gives an
    entry that the limit 4 does not. *)
Example deep_doc_does_not_fit :
  height deep_doc = 6 ∧
  analyze_json_structure deep_doc "" 0 5 ≠ analyze_json_structure deep_doc "" 0 4.
Proof.
  split; [reflexivity|]. intros H.
  apply (f_equal (λ r, match r with
                       | Ok m => m !! "a.b.c.d.e.f"
                       | Raise _ => None
                       end)) in H.
  vm_compute in H. discriminate H.
Qed.

(** *** Only the remaining depth matters *)

Lemma entries_shift obj :
  ∀ depth max_depth n,
    entries obj (depth + n) (max_depth + n) = entries obj depth max_depth.
Proof.
  induction obj as [v Hv|items IH] using json_first_ind;
    intros depth md n; rewrite !entries_unfold.
  { destruct v; try done; by repeat case_match. }
  destruct (Z.gtb_spec (depth + n) (md + n)), (Z.gtb_spec depth md); try lia; [done|].
  induction IH as [|[k value] items [Hv Hv0] _ IHitems]; [done|].
  cbn [snd] in Hv, Hv0. cbn [flat_map]. f_equal; [|done].
  unfold item_entries. f_equal.
  replace (depth + n + 1) with (depth + 1 + n) by lia.
  destruct value as [| | | | |l|d]; try done.
  - destruct l as [|v0 l]; [done|].
    destruct (isinstance_dict v0); [|done]. by rewrite (Hv0 _ _ eq_refl).
  - by rewrite Hv.
Qed.

(** X4: the result depends on [depth] and [max_depth] only through their
    difference: moving both by the same amount changes nothing. *)
Theorem analyze_json_structure_shift obj prefix depth max_depth n :
  analyze_json_structure obj prefix (depth + n) (max_depth + n)
  = analyze_json_structure obj prefix depth max_depth.
Proof. by rewrite !analyze_json_structure_writes, entries_shift. Qed.

(** *** Paths lie under the prefix *)

Lemma str_app_assoc (a b c : string) : (a +:+ b) +:+ c = a +:+ (b +:+ c).
Proof.
  induction a as [|x a IH]; [reflexivity|].
  change (String x ((a +:+ b) +:+ c) = String x (a +:+ (b +:+ c))). by rewrite IH.
Qed.

Lemma str_app_nil_r (a : string) : a +:+ "" = a.
Proof.
  induction a as [|x a IH]; [reflexivity|].
  change (String x (a +:+ "") = String x a). by rewrite IH.
Qed.

Lemma render_under prefix sp : ∃ rest, render prefix sp = prefix +:+ rest.
Proof.
  revert prefix. induction sp as [|[k|] sp IH]; intros prefix; cbn [render].
  - exists "". by rewrite str_app_nil_r.
  - destruct prefix as [|x prefix]; [by eexists|]. cbn [str_truthy].
    destruct (IH (String x prefix +:+ "." +:+ k)) as [rest ->].
    exists ("." +:+ k +:+ rest). by rewrite !str_app_assoc.
  - destruct (IH (prefix +:+ "[0]")) as [rest ->].
    exists ("[0]" +:+ rest). by rewrite str_app_assoc.
Qed.

Lemma render_under_key prefix k sp :
  str_truthy prefix = true →
  ∃ rest, render prefix (Key k :: sp) = prefix +:+ "." +:+ rest.
Proof.
  intros Hp. cbn [render]. rewrite Hp.
  destruct (render_under (prefix +:+ "." +:+ k) sp) as [rest ->].
  exists (k +:+ rest). by rewrite !str_app_assoc.
Qed.

(** X5: every path of the mapping returned by a call begins with the prefix
    the call was given; below a non-empty prefix, with the prefix and a dot.
    So the entries a nested call adds never touch a path outside its own
    subtree's prefix. *)
Theorem analyze_json_structure_under_prefix obj prefix depth max_depth m p :
  analyze_json_structure obj prefix depth max_depth = Ok m →
  is_Some (m !! p) →
  (∃ rest, p = prefix +:+ rest) ∧
  (str_truthy prefix = true → ∃ rest, p = prefix +:+ "." +:+ rest).
Proof.
  intros Hm [s Hs].
  destruct (analyze_entry_sound_at _ _ _ _ _ _ _ Hm Hs) as (sp & v & Hp & _ & _ & <- & _).
  split; [apply render_under|]. intros Htruthy.
  destruct (entry_path_key _ Hp) as (k & sp' & ->). by apply render_under_key.
Qed.

Lemma analyze_json_structure_under_prefix_witness :
  (∃ rest, "journeys[0].legs" = "journeys[0]" +:+ rest) ∧
  (str_truthy "journeys[0]" = true →
   ∃ rest, "journeys[0].legs" = "journeys[0]" +:+ "." +:+ rest).
Proof.
  apply (analyze_json_structure_under_prefix
           (JDict [("legs", JList [])]) "journeys[0]" 1 4
           (<["journeys[0].legs" := "array (empty)"]> ∅)).
  - vm_compute. reflexivity.
  - vm_compute. eauto.
Defined.

(** *** Objects put together *)

(** X6: the analysis of an object whose items are those of one object
    followed by those of another is the analysis of the first updated with
    the analysis of the second: where both write the same path string, the
    later item wins. *)
Theorem analyze_json_structure_app items1 items2 prefix depth max_depth m1 m2 :
  analyze_json_structure (JDict items1) prefix depth max_depth = Ok m1 →
  analyze_json_structure (JDict items2) prefix depth max_depth = Ok m2 →
  analyze_json_structure (JDict (items1 ++ items2)) prefix depth max_depth
  = Ok (dict_update m1 m2).
Proof.
  rewrite !analyze_json_structure_writes, !entries_unfold.
  intros [= <-] [= <-]. unfold dict_update. f_equal.
  destruct (depth >? max_depth); [by rewrite <-writes_union|].
  by rewrite flat_map_app, writes_app, writes_union.
Qed.

Lemma analyze_json_structure_app_witness :
  analyze_json_structure shadowed_object_doc "" 0 4
  = Ok (dict_update (<["a.b" := "object (0 keys)"]> (<["a" := "object (1 keys)"]> ∅))
                    (<["a.b" := "int: 1"]> ∅)).
Proof.
  apply (analyze_json_structure_app
           [("a", JDict [("b", JDict [])])] [("a.b", JInt 1)] "" 0 4).
  - vm_compute. reflexivity.
  - vm_compute. reflexivity.
Defined.

(** *** What the analyzer does not look at *)

Lemma same_view_isinstance_dict v v' :
  same_view v v' → isinstance_dict v = isinstance_dict v'.
Proof. by inversion 1. Qed.

Lemma Forall2_same_view_length items items' :
  Forall2 (λ kv kv' : string * json, kv.1 = kv'.1 ∧ same_view kv.2 kv'.2) items items' →
  length items = length items'.
Proof. apply Forall2_length. Qed.

(** X7: elements of an array after the first, and a first element that is
    not an object, are never looked at: two documents that differ only
    there, with arrays of the same lengths, have the same analysis. *)
Theorem analyze_json_structure_same_view v v' prefix depth max_depth :
  same_view v v' →
  analyze_json_structure v prefix depth max_depth
  = analyze_json_structure v' prefix depth max_depth.
Proof.
  revert v' prefix depth max_depth.
  induction v as [v Hv|items IH] using json_first_ind; intros v' prefix depth md Hsame.
  { inversion Hsame; subst; try done.
    all: rewrite !analyze_json_structure_unfold; by destruct (depth >? md). }
  inversion Hsame as [|? items' Hitems| |]; subst; [done|].
  rewrite !analyze_json_structure_unfold. destruct (depth >? md); [done|].
  clear Hsame. generalize (∅ : gmap string string) as acc.
  induction Hitems as [|[k x] [k' x'] items items' [Hk Hx] _ IHitems];
    intros acc; [done|].
  apply Forall_cons_1 in IH as [[Hv Hv0] IH]. cbn [fst snd] in *. subst k'.
  rewrite !for_items_cons.
  assert (analyze_item prefix depth md (k, x) acc
          = analyze_item prefix depth md (k, x') acc) as ->.
  { unfold analyze_item.
    inversion Hx as [|d d' Hd|y y' l l' Hy Hyy Hl|y y' l l' Hy Hy' Hl]; subst; [done|..].
    - rewrite (Forall2_same_view_length _ _ Hd).
      by rewrite (Hv (JDict d') _ _ _ Hx).
    - rewrite <-(same_view_isinstance_dict _ _ Hyy), Hy. cbn [length]. rewrite Hl.
      by rewrite (Hv0 _ _ eq_refl y' _ _ _ Hyy).
    - rewrite Hy, Hy'. cbn [length]. by rewrite Hl. }
  destruct (analyze_item prefix depth md (k, x') acc) as [acc'|e]; [|done].
  rewrite !result_bind_Ok. by apply IHitems.
Qed.

Lemma three_stops_same_view : same_view three_stops_doc three_other_stops_doc.
Proof.
  apply same_view_dict. constructor; [split; [done|]|].
  - by apply same_view_list_dict; [|apply same_view_refl|].
  - constructor; [|constructor]. split; [done|apply same_view_refl].
Defined.

Lemma analyze_json_structure_same_view_witness :
  analyze_json_structure three_stops_doc "" 0 4
  = analyze_json_structure three_other_stops_doc "" 0 4.
Proof. apply analyze_json_structure_same_view, three_stops_same_view. Defined.

(** *** Plain keys *)

Lemma str_app_cons c (a b : string) : String c a +:+ b = String c (a +:+ b).
Proof. reflexivity. Qed.

Lemma render_suffix prefix sp :
  str_truthy prefix = true → render prefix sp = prefix +:+ suffix sp.
Proof.
  revert prefix. induction sp as [|[k|] sp IH]; intros prefix Hp; cbn [render suffix].
  - by rewrite str_app_nil_r.
  - rewrite Hp, IH, !str_app_assoc; [done|]. by destruct prefix.
  - rewrite IH, !str_app_assoc; [done|]. by destruct prefix.
Qed.

Lemma suffix_stops sp : stops (suffix sp) = true.
Proof. by destruct sp as [|[k|] sp]. Qed.

Lemma plain_key_nonempty k : plain_key k = true → str_truthy k = true.
Proof. unfold plain_key. by intros [[? _]%andb_true_iff _]%andb_true_iff. Qed.

Lemma plain_key_no_stop k :
  plain_key k = true →
  has_char "."%char k = false ∧ has_char "["%char k = false.
Proof.
  unfold plain_key.
  intros [[_ ?%negb_true_iff]%andb_true_iff ?%negb_true_iff]%andb_true_iff. done.
Qed.

(** A key without dot and bracket ends where the rest of the path begins. *)
Lemma split_at_stop k k' t t' :
  has_char "."%char k = false → has_char "["%char k = false →
  has_char "."%char k' = false → has_char "["%char k' = false →
  stops t = true → stops t' = true →
  k +:+ t = k' +:+ t' → k = k' ∧ t = t'.
Proof.
  revert k'. induction k as [|c k IH]; intros [|c' k'] Hd Hb Hd' Hb' Ht Ht' Heq.
  - done.
  - change (t = String c' (k' +:+ t')) in Heq. subst t. cbn [has_char stops] in *.
    destruct (Ascii.eqb "." c'), (Ascii.eqb "[" c'); done.
  - change (String c (k +:+ t) = t') in Heq. subst t'. cbn [has_char stops] in *.
    destruct (Ascii.eqb "." c), (Ascii.eqb "[" c); done.
  - rewrite !str_app_cons in Heq. injection Heq as -> Heq. cbn [has_char stops] in *.
    destruct (Ascii.eqb "." c'), (Ascii.eqb "[" c'); try done.
    destruct (IH k' Hd Hb Hd' Hb' Ht Ht' Heq) as [-> ->]. done.
Qed.

Lemma suffix_inj sp :
  ∀ sp', Forall plain_seg sp → Forall plain_seg sp' →
         suffix sp = suffix sp' → sp = sp'.
Proof.
  induction sp as [|[k|] sp IH]; intros [|[k'|] sp'] Hsp Hsp' Heq; try done.
  - apply Forall_cons_1 in Hsp as [Hk Hsp]. apply Forall_cons_1 in Hsp' as [Hk' Hsp'].
    cbn [suffix] in Heq. rewrite !str_app_cons in Heq. injection Heq as Heq.
    change ("" +:+ ?x) with x in Heq.
    destruct (plain_key_no_stop _ Hk) as [? ?], (plain_key_no_stop _ Hk') as [? ?].
    destruct (split_at_stop k k' (suffix sp) (suffix sp')) as [-> Hrest];
      [done..|apply suffix_stops|apply suffix_stops|done|].
    by rewrite (IH sp').
  - apply Forall_cons_1 in Hsp as [_ Hsp]. apply Forall_cons_1 in Hsp' as [_ Hsp'].
    cbn [suffix] in Heq. rewrite !str_app_cons in Heq. injection Heq as Heq.
    change ("" +:+ ?x) with x in Heq. by rewrite (IH sp').
Qed.

Lemma render_inj sp sp' :
  entry_path sp = true → entry_path sp' = true →
  Forall plain_seg sp → Forall plain_seg sp' →
  render "" sp = render "" sp' → sp = sp'.
Proof.
  intros Hp Hp' Hsp Hsp'.
  destruct (entry_path_key _ Hp) as (k & r & ->).
  destruct (entry_path_key _ Hp') as (k' & r' & ->).
  apply Forall_cons_1 in Hsp as [Hk Hsp]. apply Forall_cons_1 in Hsp' as [Hk' Hsp'].
  cbn [render str_truthy].
  rewrite !render_suffix by by apply plain_key_nonempty.
  intros Heq.
  destruct (plain_key_no_stop _ Hk) as [? ?], (plain_key_no_stop _ Hk') as [? ?].
  destruct (split_at_stop k k' (suffix r) (suffix r')) as [-> Hrest];
    [done..|apply suffix_stops|apply suffix_stops|done|].
  by rewrite (suffix_inj r r').
Qed.

Lemma plain_doc_unfold v :
  plain_doc v
  = match v with
    | JDict items =>
        distinct (map fst items) &&
        forallb (λ '(key, value), plain_key key && plain_doc value) items
    | JList l => forallb plain_doc l
    | _ => true
    end.
Proof. by destruct v. Qed.

Lemma distinct_lookup (items : list (string * json)) k v v' :
  distinct (map fst items) = true → In (k, v) items → In (k, v') items → v = v'.
Proof.
  induction items as [|[k0 v0] items IH]; [done|]. cbn [map fst distinct].
  intros [Hfresh Hrest]%andb_true_iff Hin Hin'.
  apply negb_true_iff in Hfresh.
  assert (∀ w, In (k0, w) items → False) as Hnot.
  { intros w Hw. apply not_true_iff_false in Hfresh. apply Hfresh.
    apply existsb_exists. exists k0. split; [|apply String.eqb_refl].
    apply in_map_iff. by exists (k0, w). }
  destruct Hin as [[= -> ->]|Hin], Hin' as [[= <-]|Hin'].
  - done.
  - by destruct (Hnot v').
  - subst. by destruct (Hnot v).
  - by apply IH.
Qed.

Lemma plain_at_path doc sp v :
  plain_doc doc = true → at_path doc sp v →
  plain_doc v = true ∧ Forall plain_seg sp.
Proof.
  intros Hdoc Hat. induction Hat as [v|items k v sp w Hin _ IH|x l sp w _ IH].
  - done.
  - rewrite plain_doc_unfold in Hdoc. apply andb_true_iff in Hdoc as [_ Hall].
    rewrite forallb_forall in Hall. specialize (Hall _ Hin). cbn in Hall.
    apply andb_true_iff in Hall as [Hk Hv].
    destruct (IH Hv) as [? ?]. split; [done|]. by constructor.
  - rewrite plain_doc_unfold in Hdoc. cbn [forallb] in Hdoc.
    apply andb_true_iff in Hdoc as [Hx _].
    destruct (IH Hx) as [? ?]. split; [done|]. by constructor.
Qed.

Lemma at_path_functional doc sp v v' :
  plain_doc doc = true → at_path doc sp v → at_path doc sp v' → v = v'.
Proof.
  intros Hdoc Hat. revert v'.
  induction Hat as [v|items k v sp w Hin Hat IH|x l sp w Hat IH]; intros v' Hat'.
  - by inversion Hat'.
  - inversion Hat' as [|? ? v2 ? ? Hin' Hrest|]; subst.
    rewrite plain_doc_unfold in Hdoc. apply andb_true_iff in Hdoc as [Hdist Hall].
    assert (v2 = v) as -> by by eapply distinct_lookup.
    rewrite forallb_forall in Hall. specialize (Hall _ Hin). cbn in Hall.
    apply andb_true_iff in Hall as [_ Hv]. by apply IH.
  - inversion Hat' as [| |? ? ? ? Hrest]; subst.
    rewrite plain_doc_unfold in Hdoc. cbn [forallb] in Hdoc.
    apply andb_true_iff in Hdoc as [Hx _]. by apply IH.
Qed.

(** X8: in a document whose keys are all plain (not empty, no dot, no
    opening bracket), no two positions share a path string, so every value
    reached within the depth limit has its own summary as the entry under
    its path string. *)
Theorem analyze_json_structure_plain doc max_depth m sp v :
  plain_doc doc = true →
  analyze_json_structure doc "" 0 max_depth = Ok m →
  reached doc max_depth sp v →
  m !! render "" sp = Some (describe v).
Proof.
  intros Hdoc Hm Hr. apply (analyze_entry_unshared _ _ _ _ _ Hm Hr).
  intros sp' v' (Hp' & Hat' & _) Heq. destruct Hr as (Hp & Hat & _).
  destruct (plain_at_path _ _ _ Hdoc Hat) as [_ Hsp].
  destruct (plain_at_path _ _ _ Hdoc Hat') as [_ Hsp'].
  assert (sp' = sp) as -> by by apply render_inj.
  by eapply at_path_functional.
Qed.

Lemma analyze_json_structure_plain_witness :
  ∃ m, analyze_json_structure stops_doc "" 0 4 = Ok m ∧
       m !! "locations[0].parent.name" = Some "str: 'Epping'".
Proof.
  exists (writes "" (entries stops_doc 0 4) ∅).
  split; [apply analyze_json_structure_writes|].
  apply (analyze_json_structure_plain stops_doc 4 _
           [Key "locations"; Idx0; Key "parent"; Key "name"] (JStr "Epping")).
  - reflexivity.
  - apply analyze_json_structure_writes.
  - apply reached_entries. vm_compute. tauto.
Defined.

(** * Further properties of the summarizers and the driver *)

(** *** A document that is not an object *)

(** X9: given a document that is not an object (an array, a string, a
    number, a boolean or null), each summarizer prints its banner and then
    raises [AttributeError] at the first lookup. *)
Theorem summarizers_on_non_object data :
  isinstance_dict data = false →
  summarize_stop_finder data
  = Printer [newline +:+ "=== STOP FINDER RESPONSE ==="] (Raise AttributeError) ∧
  summarize_departure_mon data
  = Printer [newline +:+ "=== DEPARTURE MONITOR RESPONSE ==="] (Raise AttributeError) ∧
  summarize_trip data
  = Printer [newline +:+ "=== TRIP RESPONSE ==="] (Raise AttributeError) ∧
  summarize_add_info data
  = Printer [newline +:+ "=== ADD_INFO (SERVICE ALERTS) RESPONSE ==="]
      (Raise AttributeError) ∧
  summarize_coord data
  = Printer [newline +:+ "=== COORD (NEARBY) RESPONSE ==="] (Raise AttributeError).
Proof. intros H. by destruct data. Qed.

Lemma summarizers_on_non_object_witness :
  summarize_trip (JList [JDict [("journeys", JList [])]])
  = Printer [newline +:+ "=== TRIP RESPONSE ==="] (Raise AttributeError).
Proof.
  by destruct (summarizers_on_non_object (JList [JDict [("journeys", JList [])]]) eq_refl)
    as (_ & _ & H & _).
Defined.

(** *** Nothing to show *)

(** X10: when an object has no locations (no journeys, for a trip), the key
    missing or its array empty, the stop-finder, trip and nearby summarizers
    print the banner, the version and a count of zero, and nothing else. *)
Theorem summarizers_on_empty_list items key :
  dict_lookup key items = None ∨ dict_lookup key items = Some (JList []) →
  let version :=
    str (match dict_lookup "version" items with Some v => v | None => JNull end) in
  (key = "locations" →
   summarize_stop_finder (JDict items)
   = Printer [newline +:+ "=== STOP FINDER RESPONSE ==="; "Version: " +:+ version;
              "Locations count: 0"] (Ok tt) ∧
   summarize_coord (JDict items)
   = Printer [newline +:+ "=== COORD (NEARBY) RESPONSE ==="; "Version: " +:+ version;
              "Locations count: 0"] (Ok tt)) ∧
  (key = "journeys" →
   summarize_trip (JDict items)
   = Printer [newline +:+ "=== TRIP RESPONSE ==="; "Version: " +:+ version;
              "Journeys count: 0"] (Ok tt)).
Proof.
  intros Hkey version. split; intros ->.
  - unfold summarize_stop_finder, summarize_coord, get, get_or, len, py_get.
    by destruct Hkey as [-> | ->].
  - unfold summarize_trip, get, get_or, len, py_get.
    by destruct Hkey as [-> | ->].
Qed.

Lemma summarizers_on_empty_list_witness :
  summarize_trip (JDict [("version", JStr "10.2"); ("journeys", JList [])])
  = Printer [newline +:+ "=== TRIP RESPONSE ==="; "Version: 10.2";
             "Journeys count: 0"] (Ok tt).
Proof.
  by apply (summarizers_on_empty_list
              [("version", JStr "10.2"); ("journeys", JList [])] "journeys");
    [right|].
Defined.

(** *** The name of the first location *)

(** X11: when the first location of a stop-finder response is an object
    with a name, the summarizer prints the line "  - name: " followed by
    that name as it is (for a string: without quotes, uncut), whatever else
    the response holds. *)
Theorem summarize_stop_finder_prints_name items loc rest name :
  dict_lookup "locations" items = Some (JList (JDict loc :: rest)) →
  dict_lookup "name" loc = Some (JStr name) →
  In ("  - name: " +:+ name) (output (summarize_stop_finder (JDict items))).
Proof.
  intros Hlocs Hname.
  unfold summarize_stop_finder, get, get_or, len.
  repeat first [rewrite output_print_bind | rewrite eval_Ok_bind
               |rewrite Hlocs | rewrite Hname
               |progress cbn [py_get py_len py_truthy py_index0 str]].
  do 5 right. left. reflexivity.
Qed.

Lemma summarize_stop_finder_prints_name_witness :
  In "  - name: Epping Station" (output (summarize_stop_finder epping_doc)).
Proof.
  apply (summarize_stop_finder_prints_name _
           [("id", JStr "207610"); ("name", JStr "Epping Station");
            ("type", JStr "stop"); ("parent", JDict [("name", JStr "Epping")])] []
           "Epping Station"); reflexivity.
Defined.

(** *** Exceptions in the driver *)

Lemma for_each_raise {A} (body : A → printer unit) pre it post out o e :
  for_each body pre = Printer out (Ok tt) →
  body it = Printer o (Raise e) →
  for_each body (pre ++ it :: post) = Printer (out ++ o) (Raise e).
Proof.
  intros Hpre Hit.
  by rewrite for_each_app, for_each_cons, Hpre, Hit, printer_bind_Ok.
Qed.

(** X12: nothing in the driver catches an exception: when the iteration for
    an entry raises, the run ends with that exception after what was printed
    so far, and the entries after it are not processed, whatever their files
    are. *)
Theorem main_stops_at_exception globals fs pre name filename post out o e :
  files = (pre ++ (name, filename) :: post)%list →
  for_each (main_entry globals fs) pre = Printer out (Ok tt) →
  main_entry globals fs (name, filename) = Printer o (Raise e) →
  main globals fs = Printer (out ++ o) (Raise e).
Proof. intros Hfiles Hpre Hit. unfold main. rewrite Hfiles. by apply for_each_raise. Qed.

Lemma main_stops_at_exception_witness :
  main module_globals broken_trip_fs
  = Printer (["File not found: example_stop_finder_1_epp.json";
              "File not found: example_departure_mon_1_central.json";
              "File not found: example_departure_mon_2_circular_quay.json"]
             ++ file_header "example_trip_1.json")
            (Raise JSONDecodeError).
Proof.
  apply (main_stops_at_exception module_globals broken_trip_fs (firstn 3 files)
           "trip_1" "example_trip_1.json" (skipn 4 files)).
  - reflexivity.
  - vm_compute. reflexivity.
  - vm_compute. reflexivity.
Defined.

(** X13: a file that is there but cannot be opened or parsed ends the run
    with the exception of the parser: its three header lines are the last
    thing printed, the size line is not, and no summarizer is called. *)
Theorem main_unreadable_file globals fs pre name filename post out f e :
  files = (pre ++ (name, filename) :: post)%list →
  for_each (main_entry globals fs) pre = Printer out (Ok tt) →
  fs !! filename = Some f →
  file_json f = Raise e →
  main globals fs = Printer (out ++ file_header filename) (Raise e).
Proof.
  intros Hfiles Hpre Hfs Hjson. unfold main. rewrite Hfiles.
  apply for_each_raise; [done|].
  unfold main_entry. by rewrite Hfs, Hjson.
Qed.

Lemma main_unreadable_file_witness :
  main (delete "summarize_trip" module_globals) broken_trip_fs
  = Printer (["File not found: example_stop_finder_1_epp.json";
              "File not found: example_departure_mon_1_central.json";
              "File not found: example_departure_mon_2_circular_quay.json"]
             ++ file_header "example_trip_1.json")
            (Raise JSONDecodeError).
Proof.
  apply (main_unreadable_file _ broken_trip_fs (firstn 3 files)
           "trip_1" "example_trip_1.json" (skipn 4 files) _
           (File 17 (Raise JSONDecodeError))).
  - reflexivity.
  - vm_compute. reflexivity.
  - reflexivity.
  - reflexivity.
Defined.

(** *** A run without exception *)

Lemma runs_for_each {A} (body : A → printer unit) l :
  (∀ it, In it l → runs (body it)) → runs (for_each body l).
Proof.
  induction l as [|it l IH]; intros Hbody; [apply runs_ret|].
  rewrite for_each_cons. apply runs_bind; [apply Hbody; by left|].
  intros _. apply IH. intros it' Hin. apply Hbody. by right.
Qed.

Lemma module_globals_summarizers :
  module_globals !! "summarize_stop_finder" = Some (FunSummarize summarize_stop_finder) ∧
  module_globals !! "summarize_departure_mon"
    = Some (FunSummarize summarize_departure_mon) ∧
  module_globals !! "summarize_trip" = Some (FunSummarize summarize_trip) ∧
  module_globals !! "summarize_add_info" = Some (FunSummarize summarize_add_info) ∧
  module_globals !! "summarize_coord" = Some (FunSummarize summarize_coord).
Proof.
  unfold module_globals. cbn [list_to_map foldr fst snd].
  split_and!; by rewrite ?lookup_insert_ne, lookup_insert_eq by done.
Qed.

(** The category and the shape of a logical name of the list. *)
Ltac name_category name Hdata :=
  rewrite dispatch_first_category;
  let c := eval vm_compute in (first_category name) in
  change (first_category name) with c;
  let s := eval vm_compute in (shape_for name) in
  change (shape_for name) with s in Hdata;
  cbn [snd]; unfold call.

Lemma call_module_runs name data :
  In name (map fst files) →
  conforms (shape_for name) data = true →
  runs (dispatch module_globals name data).
Proof.
  intros Hin Hdata. cbn in Hin.
  destruct module_globals_summarizers as (H1 & H2 & H3 & H4 & H5).
  repeat (destruct Hin as [<-|Hin];
          [name_category ltac:(lazymatch goal with
                               | |- runs (dispatch _ ?name _) => name
                               end) Hdata;
           first [rewrite H1; apply summarize_stop_finder_runs; exact Hdata
                 |rewrite H2; apply summarize_departure_mon_runs; exact Hdata
                 |rewrite H3; apply summarize_trip_runs; exact Hdata
                 |rewrite H4; apply summarize_add_info_runs; exact Hdata
                 |rewrite H5; apply summarize_coord_runs; exact Hdata]|]).
  destruct Hin.
Qed.

(** X14: with the module as written, when every file of the list that is
    there parses to a document of the shape of its category, the whole run
    ends without an exception, whichever files are missing. *)
Theorem main_runs fs :
  (∀ name filename f,
     In (name, filename) files → fs !! filename = Some f →
     ∃ data, file_json f = Ok data ∧ conforms (shape_for name) data = true) →
  outcome (main module_globals fs) = Ok tt.
Proof.
  intros Hfs. apply runs_unit. unfold main. apply runs_for_each.
  intros [name filename] Hin. unfold main_entry.
  destruct (fs !! filename) as [f|] eqn:Hf; [|by exists tt].
  destruct (Hfs _ _ _ Hin Hf) as (data & Hjson & Hdata). rewrite Hjson.
  do 3 apply runs_print. rewrite eval_Ok_bind. apply runs_print.
  apply call_module_runs; [|done].
  apply in_map_iff. by exists (name, filename).
Qed.

Lemma main_runs_witness : outcome (main module_globals one_trip_fs) = Ok tt.
Proof.
  apply main_runs. intros name filename f Hin Hf. cbn in Hin.
  repeat (destruct Hin as [[= <- <-]|Hin];
          [first [discriminate Hf
                 |injection Hf as <-; by exists (JDict [])]|]).
  done.
Defined.

(** *** The first alert of a trip *)

(** The statements of a summarizer, one at a time, for any property [Q] of
    what follows: a lookup in an object of a known shape gives a value of
    the listed shape, and so on. *)
Lemma step_get {B} (Q : printer B → Prop) fields o key default (k : json → printer B) :
  conforms (SObj fields) o = true →
  conforms (field_shape fields key) default = true →
  (∀ v, conforms (field_shape fields key) v = true →
        py_get o key default = Ok v → Q (k v)) →
  Q (eval (py_get o key default) ≫= k).
Proof.
  intros Ho Hd Hk. destruct (conforms_obj_inv _ _ Ho) as [items ->].
  unfold py_get. rewrite eval_Ok_bind. apply Hk; [|done].
  destruct (dict_lookup key items) as [x|] eqn:Hx; [|done].
  by eapply conforms_field.
Qed.

Lemma step_len_arr {B} (Q : printer B → Prop) elem o (k : nat → printer B) :
  conforms (SArr elem) o = true → (∀ n, Q (k n)) → Q (len o ≫= k).
Proof.
  intros Ho Hk. destruct (conforms_arr_inv _ _ Ho) as (l & -> & _).
  unfold len, py_len. by rewrite eval_Ok_bind.
Qed.

Lemma step_index0 {B} (Q : printer B → Prop) elem x l (k : json → printer B) :
  conforms (SArr elem) (JList (x :: l)) = true →
  (conforms elem x = true → Q (k x)) →
  Q (eval (py_index0 (JList (x :: l))) ≫= k).
Proof.
  intros Ho Hk. unfold py_index0. rewrite eval_Ok_bind. apply Hk.
  destruct (conforms_arr_inv _ _ Ho) as (l' & [= <-] & Hl). apply Hl. by left.
Qed.

Lemma step_keys {B} (Q : printer B → Prop) fields o (k : json → printer B) :
  conforms (SObj fields) o = true → (∀ v, Q (k v)) → Q (eval (py_keys o) ≫= k).
Proof.
  intros Ho Hk. destruct (conforms_obj_inv _ _ Ho) as [items ->].
  unfold py_keys. by rewrite eval_Ok_bind.
Qed.

Lemma in_output_print_skip {B} line line' (k : unit → printer B) :
  In line (output (k tt)) → In line (output (print line' ≫= k)).
Proof. rewrite output_print_bind. by right. Qed.

Lemma in_output_bind_l {A B} line (c : printer A) (k : A → printer B) :
  In line (output c) → In line (output (c ≫= k)).
Proof.
  intros H. destruct c as [out [a|e]]; [|done].
  rewrite printer_bind_Ok. apply in_or_app. by left.
Qed.

Lemma in_output_bind_r {A B} line (c : printer A) (k : A → printer B) :
  runs c → (∀ a, In line (output (k a))) → In line (output (c ≫= k)).
Proof.
  intros [a Ha] Hk. destruct c as [out r]. simpl in Ha. subst r.
  rewrite printer_bind_Ok. apply in_or_app. by right.
Qed.

(** One statement on the way to the line looked for. A lookup whose value
    the context holds is replaced by that value. *)
Ltac known_lookup Heq :=
  lazymatch type of Heq with
  | py_get ?o ?key ?d = Ok _ =>
      match goal with
      | Hknown : py_get o key d = Ok (JList _) |- _ =>
          rewrite Hknown in Heq; injection Heq as <-
      | _ => idtac
      end
  end.

Ltac find_step line :=
  lazymatch goal with
  | |- In _ (output (print _ ≫= _)) => apply in_output_print_skip
  | H : conforms (SObj ?fs) ?o = true |- In _ (output (get ?o ?key ≫= ?k)) =>
      apply (step_get (λ c, In line (output c)) fs o key JNull k H);
      [reflexivity|];
      let Heq := fresh "Heq" in
      intro_value; intros Heq; known_lookup Heq
  | H : conforms (SObj ?fs) ?o = true |- In _ (output (get_or ?o ?key ?d ≫= ?k)) =>
      apply (step_get (λ c, In line (output c)) fs o key d k H);
      [first [reflexivity|assumption]|];
      let Heq := fresh "Heq" in
      intro_value; intros Heq; known_lookup Heq
  | H : conforms (SArr ?e) ?o = true |- In _ (output (len ?o ≫= ?k)) =>
      apply (step_len_arr (λ c, In line (output c)) e o k H); intros ?
  | H : conforms (SArr ?e) (JList (?x :: ?l)) = true
    |- In _ (output (eval (py_index0 (JList (?x :: ?l))) ≫= ?k)) =>
      apply (step_index0 (λ c, In line (output c)) e x l k H);
      let Hx := fresh "Hx" in intros Hx
  | H : conforms (SObj ?fs) ?o = true |- In _ (output (eval (py_keys ?o) ≫= ?k)) =>
      apply (step_keys (λ c, In line (output c)) fs o k H); intros ?
  | |- In _ (output (if py_truthy (JList (_ :: _)) then _ else _)) =>
      cbn [py_truthy]
  | |- In _ (output ((if py_truthy (JList (_ :: _)) then _ else _) ≫= _)) =>
      cbn [py_truthy]; apply in_output_bind_l
  | |- In _ (output ((if py_truthy _ then _ else _) ≫= _)) =>
      apply in_output_bind_r; [repeat run_step|intros ?]
  end.

(** X15: for a trip response of the shape of its category whose first
    journey has a first leg with an alert, the summarizer prints
    "      - first alert: " and the first 60 characters of the alert's
    subtitle; of its title when the subtitle is missing; "N/A" when both
    are. *)
Theorem summarize_trip_first_alert data journey js leg ls fields infos :
  conforms trip_shape data = true →
  py_get data "journeys" (JList []) = Ok (JList (journey :: js)) →
  py_get journey "legs" (JList []) = Ok (JList (leg :: ls)) →
  py_get leg "infos" (JList []) = Ok (JList (JDict fields :: infos)) →
  let text :=
    match dict_lookup "subtitle" fields with
    | Some v => str v
    | None =>
        match dict_lookup "title" fields with
        | Some v => str v
        | None => "N/A"
        end
    end in
  In ("      - first alert: " +:+ str_take 60 text) (output (summarize_trip data)).
Proof.
  intros Hdata Hjourneys Hlegs Hinfos text.
  set (line := "      - first alert: " +:+ str_take 60 text).
  unfold summarize_trip. unfold_shapes.
  repeat find_step line.
  lazymatch goal with
  | Hs : conforms SStr ?v = true,
    Hsub : py_get (JDict fields) "subtitle" ?t = Ok ?v,
    Htitle : py_get (JDict fields) "title" _ = Ok ?t |- _ =>
      destruct (conforms_str_inv _ Hs) as [s ->];
      unfold py_slice; rewrite eval_Ok_bind; left;
      unfold line, text; unfold py_get in Hsub, Htitle; cbn [str];
      injection Hsub as Hsub; injection Htitle as Htitle;
      destruct (dict_lookup "subtitle" fields) as [x|];
      [subst x; reflexivity|];
      destruct (dict_lookup "title" fields) as [y|]; subst;
      [reflexivity|by injection Hsub as <-]
  end.
Qed.

Lemma summarize_trip_first_alert_witness :
  In "      - first alert: Lift out of service" (output (summarize_trip journeys_doc)).
Proof.
  apply (summarize_trip_first_alert journeys_doc
           (JDict [("legs",
              JList [JDict [("duration", JInt 300);
                            ("infos", JList [JDict [("title", JStr "Lift out of service")]])]])])
           []
           (JDict [("duration", JInt 300);
                   ("infos", JList [JDict [("title", JStr "Lift out of service")]])])
           [] [("title", JStr "Lift out of service")] []); reflexivity.
Defined.

(** *** The parent of the first location *)

(** X16: for the first location of a stop-finder response, the summarizer
    prints "  - parent: None" when the parent is missing or falsy (null, an
    empty object), and the name of the parent ([None] if it has none) when
    the parent is an object with at least one key. *)
Theorem summarize_stop_finder_parent items loc rest :
  dict_lookup "locations" items = Some (JList (JDict loc :: rest)) →
  (dict_lookup "parent" loc = None ∨
   (∃ p, dict_lookup "parent" loc = Some p ∧ py_truthy p = false) →
   In "  - parent: None" (output (summarize_stop_finder (JDict items)))) ∧
  (∀ field fields,
     dict_lookup "parent" loc = Some (JDict (field :: fields)) →
     In ("  - parent: " +:+
         str (match dict_lookup "name" (field :: fields) with
              | Some v => v
              | None => JNull
              end))
        (output (summarize_stop_finder (JDict items)))).
Proof.
  intros Hlocs. split.
  - intros [Hparent|(p & Hparent & Hfalsy)];
      unfold summarize_stop_finder, get, get_or, len;
      repeat first [rewrite output_print_bind | rewrite eval_Ok_bind
                   |rewrite Hlocs | rewrite Hparent | rewrite Hfalsy
                   |rewrite printer_bind_ret_l
                   |progress cbn [py_get py_len py_truthy py_index0]];
      do 12 right; left; reflexivity.
  - intros field fields Hparent.
    unfold summarize_stop_finder, get, get_or, len.
    repeat first [rewrite output_print_bind | rewrite eval_Ok_bind
                 |rewrite Hlocs | rewrite Hparent
                 |progress cbn [py_get py_len py_truthy py_index0]].
    do 12 right; left; reflexivity.
Qed.

Lemma summarize_stop_finder_parent_witness :
  In "  - parent: Epping" (output (summarize_stop_finder epping_doc)).
Proof.
  destruct (summarize_stop_finder_parent
              [("version", JStr "10.2.11.48");
               ("locations",
                JList [JDict [("id", JStr "207610");
                              ("name", JStr "Epping Station");
                              ("type", JStr "stop");
                              ("parent", JDict [("name", JStr "Epping")])]])]
              [("id", JStr "207610"); ("name", JStr "Epping Station");
               ("type", JStr "stop"); ("parent", JDict [("name", JStr "Epping")])] [])
    as [_ Hname]; [reflexivity|].
  apply (Hname ("name", JStr "Epping") []). reflexivity.
Defined.

(** *** What the driver prints for a file *)

(** X17: for an entry whose file is there and parses, when the entries
    before it ended without exception, the run prints the size line of the
    file and every line that the summarizer of its category prints for the
    document. *)
Theorem main_prints_summary globals fs pre name filename post f data
    category summarizer g line :
  files = (pre ++ (name, filename) :: post)%list →
  runs (for_each (main_entry globals fs) pre) →
  fs !! filename = Some f →
  file_json f = Ok data →
  first_category name = Some (category, summarizer) →
  globals !! summarizer = Some (FunSummarize g) →
  In ("File size: " +:+ format_kb (file_size f) +:+ " KB") (output (main globals fs)) ∧
  (In line (output (g data)) → In line (output (main globals fs))).
Proof.
  intros Hfiles Hpre Hfs Hjson Hcat Hg.
  assert (∀ l, In l (output (main_entry globals fs (name, filename))) →
               In l (output (main globals fs))) as Hentry.
  { intros l Hl. unfold main. rewrite Hfiles, for_each_app, for_each_cons.
    apply in_output_bind_r; [done|]. intros _. by apply in_output_bind_l. }
  assert (main_entry globals fs (name, filename)
          = (print (newline +:+ str_repeat "=" 60);;
             print ("ANALYZING: " +:+ filename);;
             print (str_repeat "=" 60);;
             print ("File size: " +:+ format_kb (file_size f) +:+ " KB");;
             g data)) as Hrun.
  { unfold main_entry.
    rewrite Hfs, Hjson, eval_Ok_bind, dispatch_first_category, Hcat.
    unfold call. cbn [snd]. by rewrite Hg. }
  split; [|intros Hline]; apply Hentry; rewrite Hrun.
  - do 3 apply in_output_print_skip. rewrite output_print_bind. by left.
  - by do 4 apply in_output_print_skip.
Qed.

Lemma main_prints_summary_witness :
  In "File size: 2.5 KB" (output (main module_globals one_trip_fs)) ∧
  (In "Journeys count: 0" (output (summarize_trip (JDict []))) →
   In "Journeys count: 0" (output (main module_globals one_trip_fs))).
Proof.
  apply (main_prints_summary module_globals one_trip_fs (firstn 3 files)
           "trip_1" "example_trip_1.json" (skipn 4 files)
           (File 2560 (Ok (JDict []))) (JDict []) "trip" "summarize_trip").
  - reflexivity.
  - exists tt. vm_compute. reflexivity.
  - reflexivity.
  - reflexivity.
  - reflexivity.
  - apply module_globals_summarizers.
Defined.
